(** * Shake&Tune: the vibrations-profile sweep

    A shallow embedding of [create_vibrations_profile]
    (src/shaketune/commands/create_vibrations_profile.py) and the
    properties of its sweep planning, motion geometry, recording
    bracketing and velocity-limit handling.

    Numbers.  Python's [float] is idealised as an exact rational ([Q]);
    comparisons are the exact ones and no rounding is modelled.  Python's
    [int] is [Z].  [math.radians], [math.cos] and [math.sin] are kept
    abstract (Section variables): no property below depends on their
    values.

    Effects.  The command talks to the printer through G-code scripts,
    toolhead calls, the accelerometer and the console.  Each such call is
    an [event]; a run of the command is the list of events it issued
    together with its outcome (normal return or the error raised).  The
    calls themselves are taken to return: the only errors are those the
    command raises, and the refusal of a parameter by the host. *)

From Stdlib Require Import QArith Qround Qabs ZArith List String Bool Lia Lqa.
Import ListNotations.

Open Scope Q_scope.

(** ** Python primitives *)

Module Py.

(** [int(x)] on a float: truncation toward zero. *)
Definition int (x : Q) : Z := Z.quot (Qnum x) (Zpos (Qden x)).

(** [range(n)]: empty when [n <= 0]. *)
Definition range (n : Z) : list nat := seq 0 (Z.to_nat n).

(** [x < y] on floats. *)
Definition ltb (x y : Q) : bool := negb (Qle_bool y x).

End Py.

(** ** The speed-sweep planner (lines 19, 86, 105-106, 113-116, 125-129) *)

Definition MIN_SPEED : Z := 2.

(** Line 86: [int((max_speed - MIN_SPEED) / speed_increment + 1)]. *)
Definition nb_speed_samples (max_speed speed_increment : Q) : Z :=
  Py.int ((max_speed - inject_Z MIN_SPEED) / speed_increment + 1).

(** Line 106: [MIN_SPEED + curr_speed_sample * speed_increment]. *)
Definition curr_speed (speed_increment : Q) (curr_speed_sample : nat) : Q :=
  inject_Z MIN_SPEED + inject_Z (Z.of_nat curr_speed_sample) * speed_increment.


(** Lines 113-116. *)
Definition segment_length_multiplier (curr_speed : Q) : Q :=
  if Py.ltb curr_speed 100 then 1 / 5 + 4 / 5 * curr_speed / 100 else 1.

(** Lines 125-129. *)
Definition movements (curr_speed : Q) : nat :=
  if Py.ltb curr_speed 150 then 1%nat
  else if Py.ltb curr_speed 250 then 2%nat
  else 3%nat.

(** ** Kinematics and accelerometer axes (lines 50-57 and 93-94) *)

Inductive error : Type :=
| ParameterBelowMinimum (name : string)
| MovementTooSmall
| InputShaperNotConfigured
| UnsupportedKinematics
| AccelerometerNotFound (chip : option string).

Inductive result (A : Type) : Type :=
| Ok (a : A)
| Raise (e : error).

Arguments Ok {A} a.
Arguments Raise {A} e.

(** Lines 50-57: the angles of the two motors, or the error of line 55. *)
Definition main_angles (kinematics : string) : result (list Z) :=
  if (kinematics =? "cartesian")%string || (kinematics =? "corexz")%string
  then Ok [0; 90]%Z
  else if (kinematics =? "corexy")%string
  then Ok [45; 135]%Z
  else Raise UnsupportedKinematics.

(** Lines 93-94: [angle_to_axis.get(curr_angle, 'xy')]. *)
Definition accel_axis (curr_angle : Z) : string :=
  if (curr_angle =? 0)%Z then "x"
  else if (curr_angle =? 90)%Z then "y"
  else "xy".

(** ** What the command can observe and do *)

(** A toolhead position [[X, Y, Z, E]]. *)
Record position : Type := Pos { pos_x : Q; pos_y : Q; pos_z : Q; pos_e : Q }.

(** The arguments of one [SET_VELOCITY_LIMIT] script;
    [MINIMUM_CRUISE_RATIO] is omitted from the script when [None]. *)
Record velocity_limit : Type := VelocityLimit {
  ACCEL : Q;
  MINIMUM_CRUISE_RATIO : option Q;
  SQUARE_CORNER_VELOCITY : Q
}.

(** The recording name of line 132 is a formatting of the angle and the
    speed; it is kept as that pair. *)
Record recording_name : Type := VibName { name_angle : Z; name_speed : Q }.

Inductive message : Type :=
| MsgKinematicsMode (kinematics : string)
| MsgMeasuringAngle (curr_angle : Z)
| MsgAccelerometerChip (chip : string)
| MsgCurrentSpeed (curr_speed : Q)
| MsgProfileGeneration
| MsgMayTakeSomeTime.

Inductive event : Type :=
| RunScript (limits : velocity_limit)
| Move (target : position) (speed : Q)
| Dwell (delay : Q)
| WaitMoves
| StartRecording (chip : string) (name : recording_name)
| StopRecording (chip : string)
| ConsolePrint (msg : message)
| GraphConfigure (kinematics : string) (accel : Z)
| ProcessRun
| ProcessWaitForCompletion.

(** The parameters of the G-code command as typed by the user. *)
Record GCmd : Type := {
  SIZE : option Q;
  Z_HEIGHT : option Q;
  MAX_SPEED : option Q;
  SPEED_INCREMENT : option Q;
  ACCEL_PARAM : option Z;
  TRAVEL_SPEED : option Q;
  ACCEL_CHIP : option string
}.

(** The printer objects the command reads. *)
Record Printer : Type := {
  input_shaper : bool;
  kinematics : string;
  max_accel : Q;
  square_corner_velocity : Q;
  minimum_cruise_ratio : option Q;
  axis_minimum : Q * Q;
  axis_maximum : Q * Q;
  get_position : position;
  find_axis_accelerometer : string -> option string;
  accelerometers : list string
}.

(** [printer.lookup_object(name, None)] for an accelerometer chip. *)
Definition lookup_object (printer : Printer) (name : option string)
  : option string :=
  match name with
  | Some c => if existsb (String.eqb c) (accelerometers printer)
              then Some c else None
  | None => None
  end.

(** ** Runs: issued events and outcome *)

Definition M (A : Type) : Type := list event * result A.

Definition ret {A} (a : A) : M A := ([], Ok a).

Definition raise {A} (e : error) : M A := ([], Raise e).

Definition emit (ev : event) : M unit := ([ev], Ok tt).

Definition bind {A B} (m : M A) (k : A -> M B) : M B :=
  match snd m with
  | Ok a => (fst m ++ fst (k a), snd (k a))
  | Raise e => (fst m, Raise e)
  end.

Declare Scope run_scope.
Delimit Scope run_scope with run.
Notation "x <- m ;; k" := (bind m (fun x => k))
  (at level 100, m at next level, right associativity) : run_scope.
Notation "m ;; k" := (bind m (fun _ => k))
  (at level 100, right associativity) : run_scope.
Open Scope run_scope.

(** A [for] loop whose body may raise. *)
Fixpoint for_each {A} (l : list A) (body : A -> M unit) : M unit :=
  match l with
  | [] => ret tt
  | a :: l' => body a ;; for_each l' body
  end.

Definition trace {A} (m : M A) : list event := fst m.
Definition outcome {A} (m : M A) : result A := snd m.

(** Modelled from the spec: [gcmd.get_float] and [gcmd.get_int] belong to
    the host firmware, not to this repository.  Section 6 of the spec says
    the minimum is enforced: a given value below [minval] is refused, an
    absent parameter takes the default. *)
Definition get_float (raw : option Q) (name : string) (default : Q)
  (minval : option Q) : M Q :=
  match raw with
  | None => ret default
  | Some v =>
      match minval with
      | Some m => if Py.ltb v m then raise (ParameterBelowMinimum name)
                  else ret v
      | None => ret v
      end
  end.

Definition get_int (raw : option Z) (name : string) (default : Z)
  (minval : Z) : M Z :=
  match raw with
  | None => ret default
  | Some v => if (v <? minval)%Z then raise (ParameterBelowMinimum name)
              else ret v
  end.

(** ** The command *)

(** The parsed parameters (lines 23-32). *)
Record params : Type := {
  size : Q;
  z_height : Q;
  max_speed : Q;
  speed_increment : Q;
  accel : Z;
  feedrate_travel : Q;
  accel_chip : option string
}.

(** Lines 23-32. *)
Definition get_params (gcmd : GCmd) : M params :=
  size <- get_float (SIZE gcmd) "SIZE" 100.0 (Some 50.0) ;;
  z_height <- get_float (Z_HEIGHT gcmd) "Z_HEIGHT" 20.0 None ;;
  max_speed <- get_float (MAX_SPEED gcmd) "MAX_SPEED" 200.0 (Some 10.0) ;;
  speed_increment <-
    get_float (SPEED_INCREMENT gcmd) "SPEED_INCREMENT" 2.0 (Some 1.0) ;;
  accel <- get_int (ACCEL_PARAM gcmd) "ACCEL" 3000 100 ;;
  feedrate_travel <-
    get_float (TRAVEL_SPEED gcmd) "TRAVEL_SPEED" 120.0 (Some 20.0) ;;
  let accel_chip :=
    match ACCEL_CHIP gcmd with
    | Some c => if (c =? "")%string then None else Some c
    | None => None
    end in
  ret {| size := size; z_height := z_height; max_speed := max_speed;
         speed_increment := speed_increment; accel := accel;
         feedrate_travel := feedrate_travel; accel_chip := accel_chip |}.

(** Line 34: the left-hand side of the travel-time test. *)
Definition travel_time (p : params) : Q := size p / (max_speed p / 60).

(** Lines 64-72: the test limits, with a cruise ratio of 0 only when the
    toolhead status has a [minimum_cruise_ratio]. *)
Definition test_limits (p : params) (printer : Printer) : velocity_limit :=
  match minimum_cruise_ratio printer with
  | Some _ =>
      {| ACCEL := inject_Z (accel p); MINIMUM_CRUISE_RATIO := Some 0;
         SQUARE_CORNER_VELOCITY := 5.0 |}
  | None =>
      {| ACCEL := inject_Z (accel p); MINIMUM_CRUISE_RATIO := None;
         SQUARE_CORNER_VELOCITY := 5.0 |}
  end.

(** Lines 143-148: the restore script. *)
Definition restore_limits (old_accel old_sqv : Q) (old_mcr : option Q)
  : velocity_limit :=
  match old_mcr with
  | Some mcr =>
      {| ACCEL := old_accel; MINIMUM_CRUISE_RATIO := Some mcr;
         SQUARE_CORNER_VELOCITY := old_sqv |}
  | None =>
      {| ACCEL := old_accel; MINIMUM_CRUISE_RATIO := None;
         SQUARE_CORNER_VELOCITY := old_sqv |}
  end.

(** Lines 75-76: the centre of the bed. *)
Definition mid_x (printer : Printer) : Q :=
  (fst (axis_minimum printer) + fst (axis_maximum printer)) / 2.

Definition mid_y (printer : Printer) : Q :=
  (snd (axis_minimum printer) + snd (axis_maximum printer)) / 2.

(** Lines 93-97: the chip given with the command, or else the one found
    for the axis of the angle. *)
Definition current_accel_chip (p : params) (printer : Printer)
  (curr_angle : Z) : option string :=
  match accel_chip p with
  | Some c => Some c
  | None => find_axis_accelerometer printer (accel_axis curr_angle)
  end.

Section Sweep.

(** [math.radians], [math.cos], [math.sin]. *)
Variable math_radians : Z -> Q.
Variables math_cos math_sin : Q -> Q.

(** Lines 119-120. *)
Definition dX (p : params) (radian_angle multiplier : Q) : Q :=
  (size p / 2) * math_cos radian_angle * multiplier.

Definition dY (p : params) (radian_angle multiplier : Q) : Q :=
  (size p / 2) * math_sin radian_angle * multiplier.

(** The two ends of the segment (lines 121, 135, 136). *)
Definition endpoint_minus (p : params) (mid_x mid_y E : Q)
  (radian_angle multiplier : Q) : position :=
  Pos (mid_x - dX p radian_angle multiplier)
      (mid_y - dY p radian_angle multiplier) (z_height p) E.

Definition endpoint_plus (p : params) (mid_x mid_y E : Q)
  (radian_angle multiplier : Q) : position :=
  Pos (mid_x + dX p radian_angle multiplier)
      (mid_y + dY p radian_angle multiplier) (z_height p) E.

(** Lines 105-140: the body of the speed loop. *)
Definition measure_speed (p : params) (mid_x mid_y E : Q) (curr_angle : Z)
  (radian_angle : Q) (chip : string) (curr_speed_sample : nat) : M unit :=
  let curr_speed := curr_speed (speed_increment p) curr_speed_sample in
  emit (ConsolePrint (MsgCurrentSpeed curr_speed)) ;;
  let multiplier := segment_length_multiplier curr_speed in
  emit (Move (endpoint_minus p mid_x mid_y E radian_angle multiplier)
             (feedrate_travel p)) ;;
  let movements := movements curr_speed in
  let name := VibName curr_angle curr_speed in
  emit (StartRecording chip name) ;;
  for_each (seq 0 movements) (fun _ =>
    emit (Move (endpoint_plus p mid_x mid_y E radian_angle multiplier)
               curr_speed) ;;
    emit (Move (endpoint_minus p mid_x mid_y E radian_angle multiplier)
               curr_speed)) ;;
  emit (StopRecording chip) ;;
  emit (Dwell 0.3) ;;
  emit WaitMoves.

(** Lines 87-140: the body of the angle loop. *)
Definition measure_angle (p : params) (printer : Printer)
  (mid_x mid_y E : Q) (curr_angle : Z) : M unit :=
  emit (ConsolePrint (MsgMeasuringAngle curr_angle)) ;;
  let radian_angle := math_radians curr_angle in
  let current_accel_chip := current_accel_chip p printer curr_angle in
  match lookup_object printer current_accel_chip with
  | None => raise (AccelerometerNotFound current_accel_chip)
  | Some chip =>
      emit (ConsolePrint (MsgAccelerometerChip chip)) ;;
      for_each
        (Py.range (nb_speed_samples (max_speed p) (speed_increment p)))
        (measure_speed p mid_x mid_y E curr_angle radian_angle chip)
  end.

(** Lines 34-156, after the parameters have been read. *)
Definition run_profile (p : params) (printer : Printer) : M unit :=
  if Py.ltb (travel_time p) 0.25 then raise MovementTooSmall else
  if negb (input_shaper printer) then raise InputShaperNotConfigured else
  match main_angles (kinematics printer) with
  | Raise e => raise e
  | Ok main_angles =>
      emit (ConsolePrint (MsgKinematicsMode (kinematics printer))) ;;
      let old_accel := max_accel printer in
      let old_sqv := square_corner_velocity printer in
      let old_mcr := minimum_cruise_ratio printer in
      emit (RunScript (test_limits p printer)) ;;
      let mid_x := mid_x printer in
      let mid_y := mid_y printer in
      let X := pos_x (get_position printer) in
      let Y := pos_y (get_position printer) in
      let E := pos_e (get_position printer) in
      emit (Move (Pos X Y (z_height p) E) (feedrate_travel p / 10)) ;;
      emit (Move (Pos (mid_x - 15) (mid_y - 15) (z_height p) E)
                 (feedrate_travel p)) ;;
      emit (Dwell 0.5) ;;
      for_each main_angles (measure_angle p printer mid_x mid_y E) ;;
      emit (RunScript (restore_limits old_accel old_sqv old_mcr)) ;;
      emit WaitMoves ;;
      emit (ConsolePrint MsgProfileGeneration) ;;
      emit (ConsolePrint MsgMayTakeSomeTime) ;;
      emit (GraphConfigure (kinematics printer) (accel p)) ;;
      emit ProcessRun ;;
      emit ProcessWaitForCompletion
  end.

(** Lines 22-156. *)
Definition create_vibrations_profile (gcmd : GCmd) (printer : Printer)
  : M unit :=
  p <- get_params gcmd ;;
  run_profile p printer.

(** The speeds of one angle, given the chip. *)
Definition speed_loop_trace p mid_x mid_y E curr_angle chip : list event :=
  flat_map
    (fun i => trace (measure_speed p mid_x mid_y E
                       curr_angle (math_radians curr_angle) chip i))
    (Py.range (nb_speed_samples (max_speed p) (speed_increment p))).

(** The angle loop of a run. *)
Definition angle_loop p printer (angles : list Z) : M unit :=
  for_each angles
    (measure_angle p printer (mid_x printer) (mid_y printer)
       (pos_e (get_position printer))).

End Sweep.

(** ** A test bench *)

(** A rational stand-in for the trigonometry, exact at the angles of a
    cartesian machine. *)
Definition bench_radians (a : Z) : Q := inject_Z a * (355 # 113) / 180.
Definition bench_cos (r : Q) : Q := if Qle_bool r 1 then 1 else 0.
Definition bench_sin (r : Q) : Q := if Qle_bool r 1 then 0 else 1.

Definition bench_run : GCmd -> Printer -> M unit :=
  create_vibrations_profile bench_radians bench_cos bench_sin.

Definition default_gcmd : GCmd :=
  {| SIZE := None; Z_HEIGHT := None; MAX_SPEED := None;
     SPEED_INCREMENT := None; ACCEL_PARAM := None; TRAVEL_SPEED := None;
     ACCEL_CHIP := None |}.

(** The default sweep on a chip the printer does not have. *)
Definition wrong_chip_gcmd : GCmd :=
  {| SIZE := None; Z_HEIGHT := None; MAX_SPEED := None;
     SPEED_INCREMENT := None; ACCEL_PARAM := None; TRAVEL_SPEED := None;
     ACCEL_CHIP := Some "lis2dw"%string |}.

(** A short sweep: speeds 2, 6 and 10 on a 100 mm pattern. *)
Definition short_gcmd : GCmd :=
  {| SIZE := None; Z_HEIGHT := None; MAX_SPEED := Some 10;
     SPEED_INCREMENT := Some 4; ACCEL_PARAM := None; TRAVEL_SPEED := None;
     ACCEL_CHIP := None |}.

Definition short_params : params :=
  {| size := 100.0; z_height := 20.0; max_speed := 10; speed_increment := 4;
     accel := 3000; feedrate_travel := 120.0; accel_chip := None |}.

(** The smallest pattern at a speed just too high for it. *)
Definition hasty_gcmd : GCmd :=
  {| SIZE := Some 50; Z_HEIGHT := None; MAX_SPEED := Some 12001;
     SPEED_INCREMENT := None; ACCEL_PARAM := None; TRAVEL_SPEED := None;
     ACCEL_CHIP := None |}.

Definition hasty_params : params :=
  {| size := 50; z_height := 20.0; max_speed := 12001;
     speed_increment := 2.0; accel := 3000; feedrate_travel := 120.0;
     accel_chip := None |}.

(** A cartesian printer with one accelerometer serving both axes. *)
Definition bench_printer (mcr : option Q) (chips : list string) : Printer :=
  {| input_shaper := true;
     kinematics := "cartesian";
     max_accel := 4000;
     square_corner_velocity := 8;
     minimum_cruise_ratio := mcr;
     axis_minimum := (0, 0);
     axis_maximum := (250, 250);
     get_position := Pos 10 20 5 (7 # 2);
     find_axis_accelerometer := fun _ => Some "adxl345"%string;
     accelerometers := chips |}.

(** ** Observations on traces *)

(** The [SET_VELOCITY_LIMIT] scripts of a trace, in order. *)
Fixpoint scripts (t : list event) : list velocity_limit :=
  match t with
  | [] => []
  | RunScript l :: t' => l :: scripts t'
  | _ :: t' => scripts t'
  end.

(** The toolhead moves of a trace, in order. *)
Fixpoint moves (t : list event) : list (position * Q) :=
  match t with
  | [] => []
  | Move target speed :: t' => (target, speed) :: moves t'
  | _ :: t' => moves t'
  end.

Definition is_start (ev : event) : bool :=
  match ev with StartRecording _ _ => true | _ => false end.

Definition is_stop (ev : event) : bool :=
  match ev with StopRecording _ => true | _ => false end.

Definition count (f : event -> bool) (t : list event) : nat :=
  List.length (filter f t).

(** The recording discipline as an automaton: [recording open t] is the
    state (a recording is open or not) after the events of [t], or [None]
    if [t] starts a recording while one is open or stops one while none
    is. *)
Fixpoint recording (open : bool) (t : list event) : option bool :=
  match t with
  | [] => Some open
  | StartRecording _ _ :: t' => if open then None else recording true t'
  | StopRecording _ :: t' => if open then recording false t' else None
  | _ :: t' => recording open t'
  end.

(** The [n] back-and-forth pairs of lines 134-136. *)
Definition test_moves (plus minus : position) (speed : Q) (n : nat)
  : list event :=
  flat_map (fun _ => [Move plus speed; Move minus speed]) (seq 0 n).

(** What one speed sample issues: the approach move, the start of the
    recording, test moves at one speed, the stop, the settle dwell and the
    drain. *)
Inductive sample_block : list event -> Prop :=
| SampleBlock (chip : string) (name : recording_name)
    (approach plus minus : position) (travel speed : Q) (n : nat) :
    (1 <= n)%nat ->
    sample_block
      ([ConsolePrint (MsgCurrentSpeed speed); Move approach travel;
        StartRecording chip name]
       ++ test_moves plus minus speed n
       ++ [StopRecording chip; Dwell 0.3; WaitMoves]).

(** A trace made of sample blocks and, between them, events that neither
    start nor stop a recording. *)
Inductive bracketed : list event -> Prop :=
| bracketed_nil : bracketed []
| bracketed_quiet (ev : event) (t : list event) :
    is_start ev = false -> is_stop ev = false ->
    bracketed t -> bracketed (ev :: t)
| bracketed_block (b t : list event) :
    sample_block b -> bracketed t -> bracketed (b ++ t).

(** What the command issues before and after the angle loop
    (lines 58-82 and 143-156). *)
Definition prologue (p : params) (printer : Printer) : list event :=
  [ConsolePrint (MsgKinematicsMode (kinematics printer));
   RunScript (test_limits p printer);
   Move (Pos (pos_x (get_position printer)) (pos_y (get_position printer))
             (z_height p) (pos_e (get_position printer)))
        (feedrate_travel p / 10);
   Move (Pos (mid_x printer - 15) (mid_y printer - 15)
             (z_height p) (pos_e (get_position printer)))
        (feedrate_travel p);
   Dwell 0.5].

Definition epilogue (p : params) (printer : Printer) : list event :=
  [RunScript (restore_limits (max_accel printer)
                (square_corner_velocity printer)
                (minimum_cruise_ratio printer));
   WaitMoves;
   ConsolePrint MsgProfileGeneration;
   ConsolePrint MsgMayTakeSomeTime;
   GraphConfigure (kinematics printer) (accel p);
   ProcessRun;
   ProcessWaitForCompletion].

(** ** Further observations on traces *)

(** The names of the recordings started, in order. *)
Fixpoint recordings (t : list event) : list recording_name :=
  match t with
  | [] => []
  | StartRecording _ name :: t' => name :: recordings t'
  | _ :: t' => recordings t'
  end.

(** The calls to the analysis process (lines 154-156). *)
Definition is_processing (ev : event) : bool :=
  match ev with
  | GraphConfigure _ _ | ProcessRun | ProcessWaitForCompletion => true
  | _ => false
  end.

(** The recording that is open after the events of [t], if any. *)
Fixpoint open_recording (cur : option recording_name) (t : list event)
  : option recording_name :=
  match t with
  | [] => cur
  | StartRecording _ name :: t' => open_recording (Some name) t'
  | StopRecording _ :: t' => open_recording None t'
  | _ :: t' => open_recording cur t'
  end.

(** Every move issued while a recording is open runs at the speed the
    recording is named after, and every other move at a speed accepted by
    [idle]. *)
Fixpoint move_speeds (idle : Q -> Prop) (cur : option recording_name)
  (t : list event) : Prop :=
  match t with
  | [] => True
  | StartRecording _ name :: t' => move_speeds idle (Some name) t'
  | StopRecording _ :: t' => move_speeds idle None t'
  | Move _ speed :: t' =>
      match cur with
      | Some name => speed = name_speed name
      | None => idle speed
      end /\ move_speeds idle cur t'
  | _ :: t' => move_speeds idle cur t'
  end.

(** The same command with another [ACCEL_CHIP]. *)
Definition with_chip (gcmd : GCmd) (chip : option string) : GCmd :=
  {| SIZE := SIZE gcmd; Z_HEIGHT := Z_HEIGHT gcmd;
     MAX_SPEED := MAX_SPEED gcmd; SPEED_INCREMENT := SPEED_INCREMENT gcmd;
     ACCEL_PARAM := ACCEL_PARAM gcmd; TRAVEL_SPEED := TRAVEL_SPEED gcmd;
     ACCEL_CHIP := chip |}.

(** The same printer with another axis-to-chip resolution. *)
Definition with_resolver (printer : Printer)
  (resolver : string -> option string) : Printer :=
  {| input_shaper := input_shaper printer;
     kinematics := kinematics printer;
     max_accel := max_accel printer;
     square_corner_velocity := square_corner_velocity printer;
     minimum_cruise_ratio := minimum_cruise_ratio printer;
     axis_minimum := axis_minimum printer;
     axis_maximum := axis_maximum printer;
     get_position := get_position printer;
     find_axis_accelerometer := resolver;
     accelerometers := accelerometers printer |}.

(** The same printer with the toolhead at another height. *)
Definition at_height (printer : Printer) (z : Q) : Printer :=
  {| input_shaper := input_shaper printer;
     kinematics := kinematics printer;
     max_accel := max_accel printer;
     square_corner_velocity := square_corner_velocity printer;
     minimum_cruise_ratio := minimum_cruise_ratio printer;
     axis_minimum := axis_minimum printer;
     axis_maximum := axis_maximum printer;
     get_position :=
       Pos (pos_x (get_position printer)) (pos_y (get_position printer)) z
           (pos_e (get_position printer));
     find_axis_accelerometer := find_axis_accelerometer printer;
     accelerometers := accelerometers printer |}.

(** The recordings of one angle: one per speed, slowest first. *)
Definition angle_recordings (p : params) (curr_angle : Z)
  : list recording_name :=
  map (fun i => VibName curr_angle (curr_speed (speed_increment p) i))
      (Py.range (nb_speed_samples (max_speed p) (speed_increment p))).

(** A recording is started on the chip chosen for the angle it is named
    after, and that chip is a printer object. *)
Definition on_chosen_chip (p : params) (printer : Printer) (ev : event)
  : Prop :=
  match ev with
  | StartRecording chip name =>
      current_accel_chip p printer (name_angle name) = Some chip /\
      In chip (accelerometers printer)
  | _ => True
  end.

(** The speeds of the moves made outside recordings: the travel speed,
    or a tenth of it for the initial raise. *)
Definition travel_speeds (p : params) (speed : Q) : Prop :=
  speed = feedrate_travel p \/ speed = feedrate_travel p / 10.

(** A target inside the square of side [size] around the centre of the
    bed. *)
Definition in_pattern (p : params) (printer : Printer) (target : position)
  : Prop :=
  mid_x printer - size p / 2 <= pos_x target /\
  pos_x target <= mid_x printer + size p / 2 /\
  mid_y printer - size p / 2 <= pos_y target /\
  pos_y target <= mid_y printer + size p / 2.


(** A parameter as given, or its default. *)
Definition or_default {A} (raw : option A) (default : A) : A :=
  match raw with
  | Some v => v
  | None => default
  end.

(** ** More of the test bench *)

(** The bench printer without its input shaper. *)
Definition no_shaper_printer : Printer :=
  {| input_shaper := false;
     kinematics := "cartesian";
     max_accel := 4000;
     square_corner_velocity := 8;
     minimum_cruise_ratio := None;
     axis_minimum := (0, 0);
     axis_maximum := (250, 250);
     get_position := Pos 10 20 5 (7 # 2);
     find_axis_accelerometer := fun _ => Some "adxl345"%string;
     accelerometers := ["adxl345"%string] |}.

(** A cartesian printer whose y axis resolves to a chip it does not
    have. *)
Definition one_axis_printer : Printer :=
  {| input_shaper := true;
     kinematics := "cartesian";
     max_accel := 4000;
     square_corner_velocity := 8;
     minimum_cruise_ratio := None;
     axis_minimum := (0, 0);
     axis_maximum := (250, 250);
     get_position := Pos 10 20 5 (7 # 2);
     find_axis_accelerometer :=
       fun axis => if (axis =? "x")%string then Some "adxl345"%string
                   else Some "lis2dw"%string;
     accelerometers := ["adxl345"%string] |}.

(** The short sweep on a named chip. *)
Definition named_gcmd : GCmd := with_chip short_gcmd (Some "adxl345"%string).

Definition named_params : params :=
  {| size := 100.0; z_height := 20.0; max_speed := 10; speed_increment := 4;
     accel := 3000; feedrate_travel := 120.0;
     accel_chip := Some "adxl345"%string |}.

(** ** Facts about the Python primitives *)

Lemma ltb_lt (x y : Q) : Py.ltb x y = true <-> x < y.
Proof.
  unfold Py.ltb. rewrite negb_true_iff. split; intro H.
  - apply Qnot_le_lt. intro Hle. apply Qle_bool_iff in Hle. congruence.
  - destruct (Qle_bool y x) eqn:E; [|reflexivity].
    apply Qle_bool_iff in E. exfalso. revert E. apply Qlt_not_le, H.
Qed.

Lemma ltb_ge (x y : Q) : Py.ltb x y = false <-> y <= x.
Proof.
  unfold Py.ltb. rewrite negb_false_iff. apply Qle_bool_iff.
Qed.

Lemma ltb_spec (x y : Q) : BoolSpec (x < y) (y <= x) (Py.ltb x y).
Proof.
  destruct (Py.ltb x y) eqn:E; constructor.
  - now apply ltb_lt.
  - now apply ltb_ge.
Qed.




(** ** The speed-sweep planner *)

Lemma inject_Z_of_nat_nonneg (i : nat) : 0 <= inject_Z (Z.of_nat i).
Proof. change 0 with (inject_Z 0). rewrite <- Zle_Qle. lia. Qed.

Lemma inject_Z_of_nat_S (i : nat) :
  inject_Z (Z.of_nat (S i)) == inject_Z (Z.of_nat i) + 1.
Proof.
  rewrite Nat2Z.inj_succ. unfold Z.succ. rewrite inject_Z_plus. reflexivity.
Qed.


Lemma curr_speed_S (inc : Q) (i : nat) :
  curr_speed inc (S i) == curr_speed inc i + inc.
Proof. unfold curr_speed. rewrite inject_Z_of_nat_S. ring. Qed.

Lemma curr_speed_lower (inc : Q) (i : nat) : 0 <= inc -> 2 <= curr_speed inc i.
Proof.
  intro Hinc. unfold curr_speed, MIN_SPEED.
  pose proof (inject_Z_of_nat_nonneg i) as Hi.
  pose proof (Qmult_le_0_compat _ _ Hi Hinc) as Hm.
  change (inject_Z 2) with 2. lra.
Qed.

Lemma curr_speed_lt (inc : Q) (i j : nat) :
  0 < inc -> (i < j)%nat -> curr_speed inc i < curr_speed inc j.
Proof.
  intros Hinc Hij. induction Hij as [|j Hij IH].
  - rewrite curr_speed_S. lra.
  - rewrite curr_speed_S. lra.
Qed.









(** ** Segment length and repetitions *)

Lemma ramp_normal_form (s : Q) :
  1 / 5 + 4 / 5 * s / 100 == (1 # 5) + (1 # 125) * s.
Proof. field. Qed.



Lemma segment_length_multiplier_range (s : Q) :
  0 <= s -> 0 < segment_length_multiplier s /\ segment_length_multiplier s <= 1.
Proof.
  intro H. unfold segment_length_multiplier.
  destruct (ltb_spec s 100).
  - rewrite ramp_normal_form. lra.
  - lra.
Qed.



(** C4.  One back-and-forth pair below 150, two from 150 to below 250,
    three from 250 on; 150 gives two and 250 gives three; a higher speed
    never gets fewer pairs. *)
Theorem movements_bands :
  (forall s, s < 150 -> movements s = 1%nat) /\
  (forall s, 150 <= s -> s < 250 -> movements s = 2%nat) /\
  (forall s, 250 <= s -> movements s = 3%nat) /\
  movements 150 = 2%nat /\
  movements 250 = 3%nat /\
  (forall s s', s <= s' -> (movements s <= movements s')%nat).
Proof.
  repeat split; try reflexivity.
  - intros s H. unfold movements.
    destruct (ltb_spec s 150); [reflexivity | lra].
  - intros s H1 H2. unfold movements.
    destruct (ltb_spec s 150); [lra|].
    destruct (ltb_spec s 250); [reflexivity | lra].
  - intros s H. unfold movements.
    destruct (ltb_spec s 150); [lra|].
    destruct (ltb_spec s 250); [lra | reflexivity].
  - intros s s' H. unfold movements.
    destruct (ltb_spec s 150), (ltb_spec s' 150),
      (ltb_spec s 250), (ltb_spec s' 250); try lia; lra.
Qed.

(** Speeds 149.5, 150 and 250. *)
Lemma movements_bands_witness :
  (299 # 2) < 150 /\ movements (299 # 2) = 1%nat.
Proof.
  split.
  - unfold Qlt; simpl; lia.
  - apply (proj1 movements_bands). unfold Qlt; simpl; lia.
Defined.

(** ** Motion geometry *)


(** ** Reasoning about runs *)

Lemma trace_bind {A B} (m : M A) (k : A -> M B) :
  trace (bind m k)
  = match outcome m with
    | Ok a => trace m ++ trace (k a)
    | Raise _ => trace m
    end.
Proof. unfold bind, trace, outcome. now destruct (snd m). Qed.

Lemma outcome_bind {A B} (m : M A) (k : A -> M B) :
  outcome (bind m k)
  = match outcome m with
    | Ok a => outcome (k a)
    | Raise e => Raise e
    end.
Proof. unfold bind, outcome. now destruct (snd m). Qed.

(** A loop whose body never raises runs to its end and issues the events
    of its iterations one after the other. *)
Lemma for_each_total {A} (l : list A) (body : A -> M unit) :
  (forall a, outcome (body a) = Ok tt) ->
  for_each l body = (flat_map (fun a => trace (body a)) l, Ok tt).
Proof.
  intro Hok. induction l as [|a l IH]; [reflexivity|].
  simpl. unfold bind. specialize (Hok a). unfold outcome in Hok.
  rewrite Hok, IH. reflexivity.
Qed.

(** A loop stops at the first iteration that raises. *)
Lemma for_each_raise {A} (l : list A) (body : A -> M unit) (e : error) :
  outcome (for_each l body) = Raise e ->
  exists l1 a l2,
    l = l1 ++ a :: l2 /\
    (forall b, In b l1 -> outcome (body b) = Ok tt) /\
    outcome (body a) = Raise e /\
    trace (for_each l body)
    = flat_map (fun b => trace (body b)) l1 ++ trace (body a).
Proof.
  induction l as [|a l IH]; [discriminate|].
  simpl. rewrite outcome_bind, trace_bind.
  destruct (outcome (body a)) as [[]|e'] eqn:Ha.
  - intro H. destruct (IH H) as (l1 & b & l2 & -> & Hl1 & Hb & Ht).
    exists (a :: l1), b, l2. repeat split; try assumption.
    + intros c [<-|Hc]; [exact Ha | now apply Hl1].
    + simpl. rewrite Ht. now rewrite app_assoc.
  - intros [= ->]. exists [], a, l. repeat split; try assumption.
    intros b [].
Qed.

(** Properties of traces that hold of the empty trace and are kept by
    concatenation hold of a run once they hold of each of its steps. *)
Section TraceInvariant.

Variable P : list event -> Prop.
Hypothesis P_nil : P [].
Hypothesis P_app : forall t1 t2, P t1 -> P t2 -> P (t1 ++ t2).

Lemma bind_invariant {A B} (m : M A) (k : A -> M B) :
  P (trace m) -> (forall a, P (trace (k a))) -> P (trace (bind m k)).
Proof.
  intros Hm Hk. rewrite trace_bind. destruct (outcome m); auto.
Qed.

Lemma for_each_invariant {A} (l : list A) (body : A -> M unit) :
  (forall a, P (trace (body a))) -> P (trace (for_each l body)).
Proof.
  intro Hb. induction l as [|a l IH]; simpl.
  - exact P_nil.
  - apply bind_invariant; auto.
Qed.

Lemma flat_map_invariant {A} (l : list A) (f : A -> list event) :
  (forall a, P (f a)) -> P (flat_map f l).
Proof.
  intro Hf. induction l as [|a l IH]; simpl; auto.
Qed.

End TraceInvariant.

Lemma get_float_silent raw name default minval :
  trace (get_float raw name default minval) = [].
Proof.
  unfold get_float. destruct raw as [v|]; [|reflexivity].
  destruct minval as [m|]; [|reflexivity].
  now destruct (Py.ltb v m).
Qed.

Lemma get_int_silent raw name default minval :
  trace (get_int raw name default minval) = [].
Proof.
  unfold get_int. destruct raw as [v|]; [|reflexivity].
  now destruct (v <? minval)%Z.
Qed.

(** Reading the parameters issues nothing. *)
Lemma get_params_silent (gcmd : GCmd) : trace (get_params gcmd) = [].
Proof.
  unfold get_params.
  repeat (rewrite trace_bind;
          first [rewrite get_float_silent | rewrite get_int_silent];
          match goal with
          | |- match ?o with _ => _ end = _ => destruct o; [simpl|reflexivity]
          end).
  reflexivity.
Qed.

Lemma bind_emit {B} (ev : event) (k : unit -> M B) :
  bind (emit ev) k = (ev :: trace (k tt), outcome (k tt)).
Proof. reflexivity. Qed.

Lemma bind_loop {B} (loop : M unit) (k : unit -> M B) :
  bind loop k
  = match outcome loop with
    | Ok _ => (trace loop ++ trace (k tt), outcome (k tt))
    | Raise e => (trace loop, Raise e)
    end.
Proof. unfold bind, outcome, trace. now destruct (snd loop) as [[]|]. Qed.

(** ** The runs of the command, step by step *)

Section SweepFacts.

Variable math_radians : Z -> Q.
Variables math_cos math_sin : Q -> Q.

Local Abbreviation loop := (angle_loop math_radians math_cos math_sin).
Local Abbreviation speed_loop :=
  (speed_loop_trace math_radians math_cos math_sin).

(** One speed sample never raises and issues exactly one block. *)
Lemma measure_speed_run p mid_x mid_y E curr_angle radian_angle chip i :
  let s := curr_speed (speed_increment p) i in
  let m := segment_length_multiplier s in
  measure_speed math_cos math_sin p mid_x mid_y E curr_angle radian_angle
    chip i
  = ([ConsolePrint (MsgCurrentSpeed s);
      Move (endpoint_minus math_cos math_sin p mid_x mid_y E radian_angle m)
           (feedrate_travel p);
      StartRecording chip (VibName curr_angle s)]
     ++ test_moves
          (endpoint_plus math_cos math_sin p mid_x mid_y E radian_angle m)
          (endpoint_minus math_cos math_sin p mid_x mid_y E radian_angle m)
          s (movements s)
     ++ [StopRecording chip; Dwell 0.3; WaitMoves],
     Ok tt).
Proof.
  intros s m. unfold measure_speed. fold s. fold m.
  rewrite !bind_emit, bind_loop.
  rewrite for_each_total by reflexivity.
  reflexivity.
Qed.

Lemma movements_pos (s : Q) : (1 <= movements s)%nat.
Proof.
  unfold movements. destruct (Py.ltb s 150), (Py.ltb s 250); lia.
Qed.

Lemma measure_speed_block p mid_x mid_y E curr_angle radian_angle chip i :
  sample_block
    (trace (measure_speed math_cos math_sin p mid_x mid_y E curr_angle
              radian_angle chip i)).
Proof.
  rewrite measure_speed_run. apply SampleBlock, movements_pos.
Qed.

(** One angle: it raises, before any recording, exactly when no
    accelerometer object answers to the chosen chip. *)
Lemma measure_angle_run p printer mid_x mid_y E curr_angle :
  measure_angle math_radians math_cos math_sin p printer mid_x mid_y E
    curr_angle
  = match lookup_object printer (current_accel_chip p printer curr_angle)
    with
    | None =>
        ([ConsolePrint (MsgMeasuringAngle curr_angle)],
         Raise (AccelerometerNotFound
                  (current_accel_chip p printer curr_angle)))
    | Some chip =>
        (ConsolePrint (MsgMeasuringAngle curr_angle)
         :: ConsolePrint (MsgAccelerometerChip chip)
         :: speed_loop p mid_x mid_y E curr_angle chip,
         Ok tt)
    end.
Proof.
  unfold measure_angle, speed_loop_trace. rewrite bind_emit.
  destruct (lookup_object printer _) as [chip|]; [|reflexivity].
  rewrite bind_emit, for_each_total.
  - reflexivity.
  - intro i. now rewrite measure_speed_run.
Qed.

(** The command after its parameters: the exits of lines 35, 47 and 55
    issue nothing; past them, the prologue and the angle loop are issued,
    and the epilogue only when the loop did not raise. *)
Lemma run_profile_run p printer :
  run_profile math_radians math_cos math_sin p printer
  = if Py.ltb (travel_time p) 0.25 then ([], Raise MovementTooSmall)
    else if negb (input_shaper printer)
    then ([], Raise InputShaperNotConfigured)
    else match main_angles (kinematics printer) with
         | Raise e => ([], Raise e)
         | Ok angles =>
             match outcome (loop p printer angles) with
             | Ok _ =>
                 (prologue p printer
                  ++ trace (loop p printer angles)
                  ++ epilogue p printer,
                  Ok tt)
             | Raise e =>
                 (prologue p printer
                  ++ trace (loop p printer angles),
                  Raise e)
             end
         end.
Proof.
  unfold run_profile.
  destruct (Py.ltb (travel_time p) 0.25); [reflexivity|].
  destruct (negb (input_shaper printer)); [reflexivity|].
  destruct (main_angles (kinematics printer)) as [angles|e]; [|reflexivity].
  rewrite !bind_emit. fold (loop p printer angles).
  rewrite bind_loop.
  destruct (outcome (loop p printer angles)); reflexivity.
Qed.

End SweepFacts.

(** ** Observations and concatenation *)

Lemma scripts_app (t1 t2 : list event) :
  scripts (t1 ++ t2) = scripts t1 ++ scripts t2.
Proof.
  induction t1 as [|ev t1 IH]; [reflexivity|].
  destruct ev; simpl; now rewrite ?IH.
Qed.

Lemma moves_app (t1 t2 : list event) :
  moves (t1 ++ t2) = moves t1 ++ moves t2.
Proof.
  induction t1 as [|ev t1 IH]; [reflexivity|].
  destruct ev; simpl; now rewrite ?IH.
Qed.

Lemma count_app (f : event -> bool) (t1 t2 : list event) :
  count f (t1 ++ t2) = (count f t1 + count f t2)%nat.
Proof. unfold count. now rewrite filter_app, length_app. Qed.

Lemma recording_app (open : bool) (t1 t2 : list event) :
  recording open (t1 ++ t2)
  = match recording open t1 with
    | Some open' => recording open' t2
    | None => None
    end.
Proof.
  revert open. induction t1 as [|ev t1 IH]; intro open; [reflexivity|].
  destruct ev; simpl; try apply IH; destruct open; auto.
Qed.

Lemma recording_quiet (open : bool) (ev : event) (t : list event) :
  is_start ev = false -> is_stop ev = false ->
  recording open (ev :: t) = recording open t.
Proof. destruct ev; simpl; intros; congruence. Qed.

(** The automaton counts: starts exceed stops by one exactly while a
    recording is open. *)
Lemma recording_counts (t : list event) :
  forall open open', recording open t = Some open' ->
  (count is_start t + (if open then 1 else 0)
   = count is_stop t + (if open' then 1 else 0))%nat.
Proof.
  induction t as [|ev t IH]; intros open open' H.
  - simpl in H. injection H as <-. reflexivity.
  - destruct ev; simpl in H;
      try (change (count is_start (?e :: t)) with (count is_start t);
           change (count is_stop (?e :: t)) with (count is_stop t);
           now apply IH).
    + destruct open; [discriminate|].
      apply IH in H. unfold count in *. simpl in *. lia.
    + destruct open; [|discriminate].
      apply IH in H. unfold count in *. simpl in *. lia.
Qed.

Lemma recording_prefix (t1 t2 : list event) (open open' : bool) :
  recording open (t1 ++ t2) = Some open' ->
  exists mid, recording open t1 = Some mid.
Proof.
  rewrite recording_app. destruct (recording open t1) as [mid|].
  - intros _. now exists mid.
  - discriminate.
Qed.

Lemma recording_test_moves plus minus speed n t :
  recording true (test_moves plus minus speed n ++ t) = recording true t.
Proof.
  unfold test_moves. generalize 0%nat as start.
  induction n as [|n IH]; intro start; [reflexivity|].
  simpl. apply IH.
Qed.

Lemma sample_block_recording (b : list event) :
  sample_block b -> recording false b = Some false.
Proof.
  intros [chip name approach plus minus travel speed n _].
  simpl. now rewrite recording_test_moves.
Qed.

Lemma bracketed_recording (t : list event) :
  bracketed t -> recording false t = Some false.
Proof.
  induction 1 as [|ev t Hs He _ IH|b t Hb _ IH].
  - reflexivity.
  - now rewrite recording_quiet.
  - now rewrite recording_app, sample_block_recording.
Qed.

Lemma bracketed_app (t1 t2 : list event) :
  bracketed t1 -> bracketed t2 -> bracketed (t1 ++ t2).
Proof.
  intros H1 H2. induction H1 as [|ev t Hs He _ IH|b t Hb _ IH].
  - exact H2.
  - simpl. now apply bracketed_quiet.
  - rewrite <- app_assoc. now apply bracketed_block.
Qed.

Lemma bracketed_one (b : list event) : sample_block b -> bracketed b.
Proof.
  intro Hb. rewrite <- (app_nil_r b). apply bracketed_block;
    [exact Hb | apply bracketed_nil].
Qed.

Lemma bracketed_all_quiet (t : list event) :
  forallb (fun ev => negb (is_start ev) && negb (is_stop ev)) t = true ->
  bracketed t.
Proof.
  induction t as [|ev t IH]; simpl; intro H; [apply bracketed_nil|].
  apply andb_true_iff in H as [Hev Ht].
  apply andb_true_iff in Hev as [Hs He].
  apply negb_true_iff in Hs, He. now apply bracketed_quiet; auto.
Qed.

(** ** Invariants of whole runs *)

Section RunFacts.

Variable math_radians : Z -> Q.
Variables math_cos math_sin : Q -> Q.

Lemma get_params_ok (gcmd : GCmd) (p : params) :
  outcome (get_params gcmd) = Ok p -> get_params gcmd = ([], Ok p).
Proof.
  intro H. pose proof (get_params_silent gcmd) as Ht.
  unfold outcome in H. unfold trace in Ht.
  destruct (get_params gcmd) as [t r]. simpl in *. now subst.
Qed.

Lemma get_params_raise (gcmd : GCmd) (e : error) :
  outcome (get_params gcmd) = Raise e -> get_params gcmd = ([], Raise e).
Proof.
  intro H. pose proof (get_params_silent gcmd) as Ht.
  unfold outcome in H. unfold trace in Ht.
  destruct (get_params gcmd) as [t r]. simpl in *. now subst.
Qed.

(** With accepted parameters [p] the command is [run_profile p]. *)
Lemma create_with_params gcmd printer p :
  outcome (get_params gcmd) = Ok p ->
  create_vibrations_profile math_radians math_cos math_sin gcmd printer
  = run_profile math_radians math_cos math_sin p printer.
Proof.
  intro H. unfold create_vibrations_profile.
  rewrite (get_params_ok _ _ H). unfold bind. simpl.
  now destruct (run_profile _ _ _ p printer).
Qed.

(** With a refused parameter the command raises at once. *)
Lemma create_refused gcmd printer e :
  outcome (get_params gcmd) = Raise e ->
  create_vibrations_profile math_radians math_cos math_sin gcmd printer
  = ([], Raise e).
Proof.
  intro H. unfold create_vibrations_profile.
  now rewrite (get_params_raise _ _ H).
Qed.

Lemma create_cases gcmd printer :
  (exists p, outcome (get_params gcmd) = Ok p /\
     create_vibrations_profile math_radians math_cos math_sin gcmd printer
     = run_profile math_radians math_cos math_sin p printer) \/
  (exists name, outcome (get_params gcmd) = Raise (ParameterBelowMinimum name)
     /\ create_vibrations_profile math_radians math_cos math_sin gcmd printer
        = ([], Raise (ParameterBelowMinimum name))).
Proof.
  destruct (outcome (get_params gcmd)) as [p|e] eqn:H.
  - left. exists p. split; [reflexivity | now apply create_with_params].
  - right.
    assert (He : exists name, e = ParameterBelowMinimum name).
    { revert H. unfold get_params.
      repeat (rewrite outcome_bind;
              match goal with
              | |- match outcome ?m with _ => _ end = _ -> _ =>
                  let E := fresh "E" in
                  destruct (outcome m) eqn:E;
                  [| intros [= <-]; revert E; clear ]
              end); try discriminate;
      unfold get_float, get_int;
      repeat match goal with
             | |- context [match ?x with _ => _ end] => destruct x
             end; try discriminate; intros [= <-]; eauto. }
    destruct He as [name ->]. exists name.
    split; [reflexivity | now apply create_refused].
Qed.

Section Invariant.

Variable P : list event -> Prop.
Hypothesis P_nil : P [].
Hypothesis P_app : forall t1 t2, P t1 -> P t2 -> P (t1 ++ t2).
Hypothesis P_print : forall msg, P [ConsolePrint msg].

Variables (p : params) (printer : Printer).

Hypothesis P_sample :
  forall curr_angle radian_angle chip i,
    P (trace (measure_speed math_cos math_sin p (mid_x printer)
                (mid_y printer) (pos_e (get_position printer)) curr_angle
                radian_angle chip i)).

Lemma measure_angle_invariant curr_angle :
  P (trace (measure_angle math_radians math_cos math_sin p printer
              (mid_x printer) (mid_y printer)
              (pos_e (get_position printer)) curr_angle)).
Proof.
  rewrite measure_angle_run.
  destruct (lookup_object printer _) as [chip|]; cbn [trace fst].
  - apply (P_app [_]); [apply P_print|].
    apply (P_app [_]); [apply P_print|].
    unfold speed_loop_trace. apply flat_map_invariant; auto.
  - apply P_print.
Qed.

Lemma angle_loop_invariant angles :
  P (trace (angle_loop math_radians math_cos math_sin p printer angles)).
Proof.
  unfold angle_loop. apply for_each_invariant; auto.
  intro a. apply measure_angle_invariant.
Qed.

Hypothesis P_prologue : P (prologue p printer).
Hypothesis P_epilogue : P (epilogue p printer).

Lemma run_profile_invariant :
  P (trace (run_profile math_radians math_cos math_sin p printer)).
Proof.
  rewrite run_profile_run.
  destruct (Py.ltb _ _); [exact P_nil|].
  destruct (negb _); [exact P_nil|].
  destruct (main_angles _) as [angles|e]; [|exact P_nil].
  pose proof (angle_loop_invariant angles) as Hloop.
  destruct (outcome _); cbn [trace fst]; auto.
Qed.

End Invariant.

(** The angle loop can only raise for a missing accelerometer. *)
Lemma angle_loop_raises p printer angles e :
  outcome (angle_loop math_radians math_cos math_sin p printer angles)
  = Raise e ->
  exists a, In a angles /\
    lookup_object printer (current_accel_chip p printer a) = None /\
    e = AccelerometerNotFound (current_accel_chip p printer a).
Proof.
  intro H. apply for_each_raise in H as (l1 & a & l2 & -> & _ & Ha & _).
  exists a. split; [apply in_elt|].
  rewrite measure_angle_run in Ha.
  destruct (lookup_object printer _); [discriminate|].
  injection Ha as <-. auto.
Qed.

(** The angle loop runs no script. *)
Lemma angle_loop_scripts p printer angles :
  scripts (trace (angle_loop math_radians math_cos math_sin p printer angles))
  = [].
Proof.
  apply (angle_loop_invariant (fun t => scripts t = [])); try reflexivity.
  - intros t1 t2 H1 H2. now rewrite scripts_app, H1, H2.
  - intros. rewrite measure_speed_run. simpl.
    rewrite scripts_app. unfold test_moves.
    generalize 0%nat. induction (movements _); intro; simpl; auto.
Qed.

End RunFacts.

(** ** Accepted parameters *)

Lemma get_float_bound raw name default m v :
  outcome (get_float raw name default (Some m)) = Ok v ->
  m <= default -> m <= v.
Proof.
  unfold get_float. destruct raw as [x|]; simpl.
  - destruct (ltb_spec x m); simpl; [discriminate|]. now intros [= <-].
  - now intros [= <-].
Qed.

Lemma get_int_bound raw name default m v :
  outcome (get_int raw name default m) = Ok v ->
  (m <= default)%Z -> (m <= v)%Z.
Proof.
  unfold get_int. destruct raw as [x|]; simpl.
  - destruct (Z.ltb_spec x m); simpl; [discriminate|]. now intros [= <-].
  - now intros [= <-].
Qed.

(** The minimums of lines 23-28 hold of every accepted parameter set. *)
Lemma get_params_bounds (gcmd : GCmd) (p : params) :
  outcome (get_params gcmd) = Ok p ->
  50 <= size p /\ 10 <= max_speed p /\ 1 <= speed_increment p /\
  (100 <= accel p)%Z /\ 20 <= feedrate_travel p.
Proof.
  unfold get_params.
  rewrite outcome_bind.
  destruct (outcome (get_float (SIZE gcmd) _ _ _)) as [v1|] eqn:E1;
    [|discriminate].
  rewrite outcome_bind.
  destruct (outcome (get_float (Z_HEIGHT gcmd) _ _ _)) as [v2|] eqn:E2;
    [|discriminate].
  rewrite outcome_bind.
  destruct (outcome (get_float (MAX_SPEED gcmd) _ _ _)) as [v3|] eqn:E3;
    [|discriminate].
  rewrite outcome_bind.
  destruct (outcome (get_float (SPEED_INCREMENT gcmd) _ _ _)) as [v4|] eqn:E4;
    [|discriminate].
  rewrite outcome_bind.
  destruct (outcome (get_int (ACCEL_PARAM gcmd) _ _ _)) as [v5|] eqn:E5;
    [|discriminate].
  rewrite outcome_bind.
  destruct (outcome (get_float (TRAVEL_SPEED gcmd) _ _ _)) as [v6|] eqn:E6;
    [|discriminate].
  intros [= <-]. simpl.
  apply get_float_bound in E1, E3, E4, E6;
    try (unfold Qle; simpl; lia).
  apply get_int_bound in E5; [|lia].
  repeat split; try assumption.
  - revert E1. unfold Qle. simpl. lia.
  - revert E3. unfold Qle. simpl. lia.
  - revert E4. unfold Qle. simpl. lia.
  - revert E6. unfold Qle. simpl. lia.
Qed.

(** ** The claims about whole runs *)

Section RunClaims.

Variable math_radians : Z -> Q.
Variables math_cos math_sin : Q -> Q.

Local Abbreviation run :=
  (create_vibrations_profile math_radians math_cos math_sin).
Local Abbreviation profile := (run_profile math_radians math_cos math_sin).
Local Abbreviation loop := (angle_loop math_radians math_cos math_sin).

(** The scripts of a run, by outcome: the test limits and the restore on
    completion; the test limits alone when an accelerometer is missing;
    nothing at all on the earlier exits. *)
Lemma run_profile_scripts p printer :
  match outcome (profile p printer) with
  | Ok _ =>
      exists body,
        trace (profile p printer)
        = prologue p printer ++ body ++ epilogue p printer /\
        scripts body = [] /\
        scripts (trace (profile p printer))
        = [test_limits p printer;
           restore_limits (max_accel printer) (square_corner_velocity printer)
             (minimum_cruise_ratio printer)]
  | Raise (AccelerometerNotFound _) =>
      exists body,
        trace (profile p printer) = prologue p printer ++ body /\
        scripts body = [] /\
        scripts (trace (profile p printer)) = [test_limits p printer]
  | Raise _ => trace (profile p printer) = []
  end.
Proof.
  rewrite run_profile_run.
  destruct (Py.ltb _ _); [reflexivity|].
  destruct (negb _); [reflexivity|].
  destruct (main_angles _) as [angles|e] eqn:Hangles.
  - pose proof (angle_loop_scripts math_radians math_cos math_sin
                  p printer angles) as Hs.
    destruct (outcome (loop p printer angles)) as [[]|e] eqn:Hloop.
    + cbn [outcome trace fst snd]. eexists. split; [reflexivity|].
      split; [exact Hs|].
      rewrite !scripts_app, Hs. reflexivity.
    + apply angle_loop_raises in Hloop as (a & _ & _ & ->).
      cbn [outcome trace fst snd]. eexists. split; [reflexivity|].
      split; [exact Hs|].
      rewrite !scripts_app, Hs. reflexivity.
  - unfold main_angles in Hangles.
    destruct (_ || _); [discriminate|].
    destruct (_ =? _)%string; [discriminate|].
    injection Hangles as <-. reflexivity.
Qed.

(** C1 (amended).  Once the limits have been snapshotted and the test
    limits applied, the restore of the previous acceleration,
    square-corner velocity and (if present) minimum cruise ratio is
    executed exactly once when the sweep runs to completion: the scripts
    of such a run are the test limits, then the restore, which comes right
    after the angle loop.  When an accelerometer cannot be found the
    command stops after the test limits and runs no restore. *)
Theorem restore_once_on_completion gcmd printer p
  (Hp : outcome (get_params gcmd) = Ok p) :
  let restore :=
    restore_limits (max_accel printer) (square_corner_velocity printer)
      (minimum_cruise_ratio printer) in
  (outcome (run gcmd printer) = Ok tt ->
   scripts (trace (run gcmd printer)) = [test_limits p printer; restore] /\
   exists body,
     trace (run gcmd printer)
     = prologue p printer ++ body ++ epilogue p printer /\
     scripts body = []) /\
  (forall chip,
     outcome (run gcmd printer) = Raise (AccelerometerNotFound chip) ->
     scripts (trace (run gcmd printer)) = [test_limits p printer] /\
     exists body,
       trace (run gcmd printer) = prologue p printer ++ body /\
       scripts body = []) /\
  ACCEL restore = max_accel printer /\
  SQUARE_CORNER_VELOCITY restore = square_corner_velocity printer /\
  MINIMUM_CRUISE_RATIO restore = minimum_cruise_ratio printer.
Proof.
  intro restore. rewrite (create_with_params _ _ _ gcmd printer p Hp).
  pose proof (run_profile_scripts p printer) as H.
  split; [|split].
  - intro Hok. rewrite Hok in H. destruct H as (body & Ht & Hb & Hs).
    split; [exact Hs | now exists body].
  - intros chip Hr. rewrite Hr in H. destruct H as (body & Ht & Hb & Hs).
    split; [exact Hs | now exists body].
  - unfold restore, restore_limits.
    now destruct (minimum_cruise_ratio printer).
Qed.

(** C7.  With accepted parameters, the command raises the error of
    line 35 exactly when [size / (max_speed / 60) < 0.25], and then it has
    issued nothing: no script, no move, no recording, not even a console
    line. *)
Theorem travel_time_validation gcmd printer p
  (Hp : outcome (get_params gcmd) = Ok p) :
  (outcome (run gcmd printer) = Raise MovementTooSmall
   <-> size p / (max_speed p / 60) < 0.25) /\
  (outcome (run gcmd printer) = Raise MovementTooSmall ->
   trace (run gcmd printer) = []) /\
  (size p / (max_speed p / 60) < 0.25 ->
   run gcmd printer = ([], Raise MovementTooSmall)).
Proof.
  rewrite (create_with_params _ _ _ gcmd printer p Hp).
  assert (Hlt : size p / (max_speed p / 60) < 0.25 ->
                profile p printer = ([], Raise MovementTooSmall)).
  { intro H. rewrite run_profile_run. unfold travel_time.
    apply ltb_lt in H. now rewrite H. }
  assert (Hge : outcome (profile p printer) = Raise MovementTooSmall ->
                size p / (max_speed p / 60) < 0.25).
  { rewrite run_profile_run. unfold travel_time.
    destruct (ltb_spec (size p / (max_speed p / 60)) 0.25) as [H|H];
      [auto|].
    destruct (negb _); [discriminate|].
    destruct (main_angles _) as [angles|e] eqn:Hangles.
    - destruct (outcome (loop p printer angles)) as [[]|e] eqn:Hloop;
        [discriminate|].
      apply angle_loop_raises in Hloop as (a & _ & _ & ->). discriminate.
    - unfold main_angles in Hangles.
      destruct (_ || _); [discriminate|].
      destruct (_ =? _)%string; [discriminate|].
      injection Hangles as <-. discriminate. }
  split; [split|split].
  - exact Hge.
  - intro H. now rewrite (Hlt H).
  - intro H. apply Hge in H. now rewrite (Hlt H).
  - exact Hlt.
Qed.

(** C8.  The angles are [[0, 90]] for cartesian and corexz, [[45, 135]] in
    that order for corexy, and the error of line 55 for any other family.
    On an unsupported family the command always fails having issued
    nothing, and the failure is that error whenever the parameters are
    accepted, the travel time suffices and the input shaper is
    configured. *)
Theorem kinematics_angles :
  main_angles "cartesian" = Ok [0; 90]%Z /\
  main_angles "corexz" = Ok [0; 90]%Z /\
  main_angles "corexy" = Ok [45; 135]%Z /\
  (forall family : string,
     family <> "cartesian"%string -> family <> "corexz"%string ->
     family <> "corexy"%string ->
     main_angles family = Raise UnsupportedKinematics) /\
  (forall gcmd printer,
     main_angles (kinematics printer) = Raise UnsupportedKinematics ->
     trace (run gcmd printer) = [] /\
     exists e, outcome (run gcmd printer) = Raise e) /\
  (forall gcmd printer p,
     outcome (get_params gcmd) = Ok p ->
     0.25 <= size p / (max_speed p / 60) ->
     input_shaper printer = true ->
     main_angles (kinematics printer) = Raise UnsupportedKinematics ->
     run gcmd printer = ([], Raise UnsupportedKinematics)) /\
  (forall gcmd printer,
     outcome (run gcmd printer) = Raise UnsupportedKinematics ->
     trace (run gcmd printer) = []).
Proof.
  split; [reflexivity|]. split; [reflexivity|]. split; [reflexivity|].
  split; [|split; [|split]].
  - intros family H1 H2 H3. unfold main_angles.
    apply String.eqb_neq in H1, H2, H3. now rewrite H1, H2, H3.
  - intros gcmd printer Hk.
    destruct (create_cases math_radians math_cos math_sin gcmd printer)
      as [(p & _ & ->)|(name & _ & ->)]; [|simpl; eauto].
    rewrite run_profile_run, Hk.
    destruct (Py.ltb _ _); [simpl; eauto|].
    destruct (negb _); simpl; eauto.
  - intros gcmd printer p Hp Ht Hs Hk.
    rewrite (create_with_params _ _ _ gcmd printer p Hp).
    rewrite run_profile_run, Hk, Hs. unfold travel_time.
    apply ltb_ge in Ht. now rewrite Ht.
  - intros gcmd printer.
    destruct (create_cases math_radians math_cos math_sin gcmd printer)
      as [(p & _ & ->)|(name & _ & ->)]; [|reflexivity].
    pose proof (run_profile_scripts p printer) as H.
    intro Hr. now rewrite Hr in H.
Qed.


Lemma moves_test_moves plus minus speed n :
  Forall (fun m => fst m = plus \/ fst m = minus)
    (moves (test_moves plus minus speed n)).
Proof.
  unfold test_moves. generalize 0%nat.
  induction n as [|n IH]; intro start; simpl.
  - constructor.
  - constructor; [now left|]. constructor; [now right|]. apply IH.
Qed.

(** C10.  Every move of the run, the initial raise included, targets
    [Z = z_height] and the extruder position read at the start; the raise,
    which is the first move, also keeps the X and Y read at the start. *)
Theorem moves_keep_height_and_extruder gcmd printer p
  (Hp : outcome (get_params gcmd) = Ok p) :
  Forall (fun m => pos_z (fst m) = z_height p /\
                   pos_e (fst m) = pos_e (get_position printer))
    (moves (trace (run gcmd printer))) /\
  (forall m, hd_error (moves (trace (run gcmd printer))) = Some m ->
     m = (Pos (pos_x (get_position printer)) (pos_y (get_position printer))
              (z_height p) (pos_e (get_position printer)),
          feedrate_travel p / 10)).
Proof.
  rewrite (create_with_params _ _ _ gcmd printer p Hp). split.
  - set (ok := fun m : position * Q =>
                 pos_z (fst m) = z_height p /\
                 pos_e (fst m) = pos_e (get_position printer)).
    assert (Hloop : forall angles,
               Forall ok (moves (trace (loop p printer angles)))).
    { intro angles.
      apply (angle_loop_invariant math_radians math_cos math_sin
               (fun t => Forall ok (moves t))).
      - constructor.
      - intros t1 t2 H1 H2. rewrite moves_app. apply Forall_app. auto.
      - intro msg. constructor.
      - intros. rewrite measure_speed_run. cbn [trace fst].
        rewrite !moves_app.
        apply Forall_app; split; [|apply Forall_app; split].
        + simpl. repeat constructor.
        + eapply Forall_impl; [|apply moves_test_moves].
          intros m [H|H]; unfold ok; rewrite H; split; reflexivity.
        + simpl. constructor. }
    rewrite run_profile_run.
    destruct (Py.ltb _ _); [constructor|].
    destruct (negb _); [constructor|].
    destruct (main_angles _) as [angles|e]; [|constructor].
    specialize (Hloop angles).
    assert (Hpro : Forall ok (moves (prologue p printer)))
      by (simpl; repeat constructor).
    assert (Hepi : Forall ok (moves (epilogue p printer)))
      by (simpl; constructor).
    destruct (outcome (loop p printer angles)); cbn [trace fst];
      rewrite !moves_app; rewrite ?Forall_app; auto.
  - rewrite run_profile_run.
    destruct (Py.ltb _ _); [discriminate|].
    destruct (negb _); [discriminate|].
    destruct (main_angles _) as [angles|e]; [|discriminate].
    destruct (outcome (loop p printer angles)); cbn [trace fst];
      simpl; now intros m [= <-].
Qed.

(** C6.  In every run, completed or not, recordings are started and
    stopped in strict alternation beginning with a start and ending with a
    stop: the trace is made of sample blocks (approach move, start, the
    test moves at one speed, stop, dwell of 0.3, wait for moves) separated
    by events that are neither starts nor stops.  Hence at any instant at
    most one recording is open and the run has as many stops as starts.
    Each speed sample issues exactly one such block, with
    [movements] pairs of moves at its own speed between the start and the
    stop. *)
Theorem recordings_bracket_test_moves gcmd printer :
  bracketed (trace (run gcmd printer)) /\
  recording false (trace (run gcmd printer)) = Some false /\
  (forall before after, trace (run gcmd printer) = before ++ after ->
     (exists open, recording false before = Some open) /\
     (count is_start before = count is_stop before \/
      count is_start before = S (count is_stop before))) /\
  count is_start (trace (run gcmd printer))
  = count is_stop (trace (run gcmd printer)) /\
  (forall p mid_x mid_y E curr_angle radian_angle chip i,
     let s := curr_speed (speed_increment p) i in
     let m := segment_length_multiplier s in
     measure_speed math_cos math_sin p mid_x mid_y E curr_angle radian_angle
       chip i
     = ([ConsolePrint (MsgCurrentSpeed s);
         Move (endpoint_minus math_cos math_sin p mid_x mid_y E
                 radian_angle m)
              (feedrate_travel p);
         StartRecording chip (VibName curr_angle s)]
        ++ test_moves
             (endpoint_plus math_cos math_sin p mid_x mid_y E
                radian_angle m)
             (endpoint_minus math_cos math_sin p mid_x mid_y E
                radian_angle m)
             s (movements s)
        ++ [StopRecording chip; Dwell 0.3; WaitMoves],
        Ok tt)).
Proof.
  assert (Hb : bracketed (trace (run gcmd printer))).
  { destruct (create_cases math_radians math_cos math_sin gcmd printer)
      as [(p & _ & ->)|(name & _ & ->)]; [|apply bracketed_nil].
    apply run_profile_invariant.
    - apply bracketed_nil.
    - apply bracketed_app.
    - intro msg. now apply bracketed_all_quiet.
    - intros. apply bracketed_one, measure_speed_block.
    - now apply bracketed_all_quiet.
    - now apply bracketed_all_quiet. }
  pose proof (bracketed_recording _ Hb) as Hr.
  split; [exact Hb|]. split; [exact Hr|]. split; [|split].
  - intros before after E. rewrite E in Hr.
    destruct (recording_prefix _ _ _ _ Hr) as [open Ho].
    split; [now exists open|].
    apply recording_counts in Ho. destruct open; lia.
  - apply recording_counts in Hr. lia.
  - intros. apply measure_speed_run.
Qed.

End RunClaims.

(** ** Runs of the test bench *)

(** C1, as stated, fails: when the command names a chip that is not a
    printer object, it applies the test limits, raises at the first angle
    and runs no restore, so the printer keeps an acceleration of 3000
    instead of its own 4000. *)
Lemma restore_skipped_when_accelerometer_missing :
  let r := bench_run wrong_chip_gcmd
             (bench_printer (Some (1 # 2)) ["adxl345"%string]) in
  outcome r = Raise (AccelerometerNotFound (Some "lis2dw"%string)) /\
  In (RunScript (VelocityLimit 3000 (Some 0) 5.0)) (trace r) /\
  scripts (trace r) = [VelocityLimit 3000 (Some 0) 5.0] /\
  ~ In (RunScript (VelocityLimit 4000 (Some (1 # 2)) 8)) (trace r).
Proof.
  cbv zeta. split; [reflexivity|]. split; [|split].
  - vm_compute. right. left. reflexivity.
  - reflexivity.
  - vm_compute. intro H.
    repeat (destruct H as [H|H]; [discriminate H|]). exact H.
Qed.

(** The defaults: 100 mm at 200 mm/s gives a quotient of 30 and 100
    speeds per angle. *)
Example default_sweep :
  exists p, outcome (get_params default_gcmd) = Ok p /\
    travel_time p == 30 /\
    nb_speed_samples (max_speed p) (speed_increment p) = 100%Z /\
    segment_length_multiplier 50 == 0.6 /\
    (segment_length_multiplier 150 = 1 /\ movements 150 = 2%nat).
Proof.
  eexists. split; [reflexivity|]. repeat split.
Qed.

(** At 50 mm and 12000 mm/s the quotient is exactly 0.25, which is not
    below the threshold: the command goes on to the sweep. *)
Example travel_time_at_threshold :
  let hasty := {| SIZE := Some 50; Z_HEIGHT := None;
                  MAX_SPEED := Some 12000; SPEED_INCREMENT := Some 6000;
                  ACCEL_PARAM := None; TRAVEL_SPEED := None;
                  ACCEL_CHIP := None |} in
  outcome (bench_run hasty (bench_printer None ["adxl345"%string])) = Ok tt.
Proof. vm_compute. reflexivity. Qed.

Lemma restore_once_on_completion_witness :
  outcome (get_params short_gcmd) = Ok short_params /\
  scripts (trace (bench_run short_gcmd
                    (bench_printer (Some (1 # 2)) ["adxl345"%string])))
  = [VelocityLimit 3000 (Some 0) 5.0; VelocityLimit 4000 (Some (1 # 2)) 8].
Proof.
  split; [reflexivity|].
  apply (proj1 (restore_once_on_completion
                  bench_radians bench_cos bench_sin short_gcmd
                  (bench_printer (Some (1 # 2)) ["adxl345"%string])
                  short_params eq_refl)).
  vm_compute. reflexivity.
Defined.

(** A pattern of 50 mm at 12001 mm/min is refused; at 12000 the quotient
    is exactly 0.25 and the sweep is not refused. *)
Lemma travel_time_validation_witness :
  outcome (get_params hasty_gcmd) = Ok hasty_params /\
  bench_run hasty_gcmd (bench_printer None ["adxl345"%string])
  = ([], Raise MovementTooSmall).
Proof.
  split; [reflexivity|].
  apply (travel_time_validation bench_radians bench_cos bench_sin
           hasty_gcmd (bench_printer None ["adxl345"%string])
           hasty_params eq_refl).
  unfold Qlt. simpl. lia.
Defined.

Lemma kinematics_angles_witness :
  main_angles "delta" = Raise UnsupportedKinematics.
Proof.
  apply (proj1 (proj2 (proj2 (proj2 (kinematics_angles
           bench_radians bench_cos bench_sin))))); discriminate.
Defined.


Lemma moves_keep_height_and_extruder_witness :
  outcome (get_params short_gcmd) = Ok short_params /\
  Forall (fun m => pos_z (fst m) = 20.0 /\ pos_e (fst m) = 7 # 2)
    (moves (trace (bench_run short_gcmd
                     (bench_printer None ["adxl345"%string])))).
Proof.
  split; [reflexivity|].
  apply (moves_keep_height_and_extruder
           bench_radians bench_cos bench_sin short_gcmd
           (bench_printer None ["adxl345"%string]) short_params eq_refl).
Defined.

(** ** More about loops *)

Lemma for_each_completes {A} (l : list A) (body : A -> M unit) :
  outcome (for_each l body) = Ok tt ->
  (forall a, In a l -> outcome (body a) = Ok tt) /\
  trace (for_each l body) = flat_map (fun a => trace (body a)) l.
Proof.
  induction l as [|a l IH]; simpl.
  - intros _. split; [intros a []|reflexivity].
  - rewrite outcome_bind, trace_bind.
    destruct (outcome (body a)) as [[]|e] eqn:Ha; [|discriminate].
    intro H. destruct (IH H) as [Hall Ht]. split.
    + intros b [<-|Hb]; auto.
    + now rewrite Ht.
Qed.

Lemma for_each_all_ok {A} (l : list A) (body : A -> M unit) :
  (forall a, In a l -> outcome (body a) = Ok tt) ->
  outcome (for_each l body) = Ok tt.
Proof.
  induction l as [|a l IH]; intro H; [reflexivity|].
  simpl. rewrite outcome_bind, (H a) by now left.
  apply IH. intros b Hb. apply H. now right.
Qed.

Lemma for_each_stops {A} (l1 l2 : list A) (a : A) (body : A -> M unit) e :
  (forall b, In b l1 -> outcome (body b) = Ok tt) ->
  outcome (body a) = Raise e ->
  for_each (l1 ++ a :: l2) body
  = (flat_map (fun b => trace (body b)) l1 ++ trace (body a), Raise e).
Proof.
  intros Hl1 Ha. induction l1 as [|b l1 IH]; simpl.
  - unfold bind. unfold outcome in Ha. rewrite Ha. reflexivity.
  - unfold bind. pose proof (Hl1 b (or_introl eq_refl)) as Hb.
    unfold outcome in Hb. rewrite Hb, IH by (intros c Hc; apply Hl1; now right).
    simpl. now rewrite app_assoc.
Qed.

Lemma for_each_ext {A} (l : list A) (body1 body2 : A -> M unit) :
  (forall a, In a l -> body1 a = body2 a) ->
  for_each l body1 = for_each l body2.
Proof.
  induction l as [|a l IH]; intro H; [reflexivity|].
  simpl. rewrite (H a) by now left.
  rewrite IH; [reflexivity|]. intros b Hb. apply H. now right.
Qed.

(** ** More observations and concatenation *)

Lemma recordings_app (t1 t2 : list event) :
  recordings (t1 ++ t2) = recordings t1 ++ recordings t2.
Proof.
  induction t1 as [|ev t1 IH]; [reflexivity|].
  destruct ev; simpl; now rewrite ?IH.
Qed.

Lemma recordings_count (t : list event) :
  List.length (recordings t) = count is_start t.
Proof.
  unfold count. induction t as [|ev t IH]; [reflexivity|].
  destruct ev; simpl; now rewrite ?IH.
Qed.

Lemma recordings_test_moves plus minus speed n :
  recordings (test_moves plus minus speed n) = [].
Proof.
  unfold test_moves. generalize 0%nat.
  induction n as [|n IH]; intro start; simpl; auto.
Qed.

Lemma open_recording_app cur (t1 t2 : list event) :
  open_recording cur (t1 ++ t2) = open_recording (open_recording cur t1) t2.
Proof.
  revert cur. induction t1 as [|ev t1 IH]; intro cur; [reflexivity|].
  destruct ev; simpl; apply IH.
Qed.

Lemma move_speeds_app idle cur (t1 t2 : list event) :
  move_speeds idle cur t1 ->
  move_speeds idle (open_recording cur t1) t2 ->
  move_speeds idle cur (t1 ++ t2).
Proof.
  revert cur. induction t1 as [|ev t1 IH]; intros cur H1 H2; [exact H2|].
  destruct ev; simpl in *; try (apply IH; assumption).
  destruct H1 as [Hs H1]. split; [exact Hs|]. now apply IH.
Qed.

Lemma move_speeds_test_moves idle name plus minus n t :
  move_speeds idle (Some name) t ->
  move_speeds idle (Some name)
    (test_moves plus minus (name_speed name) n ++ t).
Proof.
  intro Ht. unfold test_moves. generalize 0%nat.
  induction n as [|n IH]; intro start; simpl; auto.
Qed.

Lemma open_recording_test_moves cur plus minus speed n t :
  open_recording cur (test_moves plus minus speed n ++ t)
  = open_recording cur t.
Proof.
  unfold test_moves. generalize 0%nat.
  induction n as [|n IH]; intro start; simpl; auto.
Qed.

(** ** Outcomes, recordings and post-processing of whole runs *)

Section RunOutcomes.

Variable math_radians : Z -> Q.
Variables math_cos math_sin : Q -> Q.

Local Abbreviation run :=
  (create_vibrations_profile math_radians math_cos math_sin).
Local Abbreviation profile := (run_profile math_radians math_cos math_sin).
Local Abbreviation loop := (angle_loop math_radians math_cos math_sin).
Local Abbreviation angle := (measure_angle math_radians math_cos math_sin).

Lemma measure_angle_outcome p printer mid_x mid_y E a :
  outcome (angle p printer mid_x mid_y E a)
  = match lookup_object printer (current_accel_chip p printer a) with
    | Some _ => Ok tt
    | None => Raise (AccelerometerNotFound (current_accel_chip p printer a))
    end.
Proof.
  rewrite measure_angle_run. now destruct (lookup_object printer _).
Qed.

Lemma recordings_measure_speed p mid_x mid_y E a radian_angle chip i :
  recordings (trace (measure_speed math_cos math_sin p mid_x mid_y E a
                       radian_angle chip i))
  = [VibName a (curr_speed (speed_increment p) i)].
Proof.
  rewrite measure_speed_run. cbn [trace fst].
  rewrite !recordings_app, recordings_test_moves. reflexivity.
Qed.

Lemma recordings_measure_angle p printer mid_x mid_y E a :
  recordings (trace (angle p printer mid_x mid_y E a))
  = match lookup_object printer (current_accel_chip p printer a) with
    | Some _ => angle_recordings p a
    | None => []
    end.
Proof.
  rewrite measure_angle_run.
  destruct (lookup_object printer _) as [chip|]; [|reflexivity].
  cbn [trace fst recordings]. unfold speed_loop_trace, angle_recordings.
  induction (Py.range _) as [|i l IH]; [reflexivity|].
  cbn [flat_map map].
  now rewrite recordings_app, recordings_measure_speed, IH.
Qed.

Lemma angle_loop_completes_iff p printer angles :
  outcome (loop p printer angles) = Ok tt <->
  forall a, In a angles ->
    lookup_object printer (current_accel_chip p printer a) <> None.
Proof.
  unfold angle_loop. split.
  - intros H a Ha. apply for_each_completes in H as [H _].
    specialize (H a Ha). rewrite measure_angle_outcome in H.
    now destruct (lookup_object printer _).
  - intro H. apply for_each_all_ok. intros a Ha.
    rewrite measure_angle_outcome. specialize (H a Ha).
    now destruct (lookup_object printer _).
Qed.

Lemma main_angles_two family angles :
  main_angles family = Ok angles -> List.length angles = 2%nat.
Proof.
  unfold main_angles. destruct (_ || _); [now intros [= <-]|].
  destruct (_ =? _)%string; [now intros [= <-]|discriminate].
Qed.

(** X1.  With accepted parameters, the command raises the input-shaper
    error of line 47 exactly when the travel time suffices and the printer
    has no input shaper object, and it has then issued nothing. *)
Theorem input_shaper_required gcmd printer p
  (Hp : outcome (get_params gcmd) = Ok p) :
  (outcome (run gcmd printer) = Raise InputShaperNotConfigured
   <-> 0.25 <= size p / (max_speed p / 60) /\
       input_shaper printer = false) /\
  (outcome (run gcmd printer) = Raise InputShaperNotConfigured ->
   trace (run gcmd printer) = []).
Proof.
  rewrite (create_with_params _ _ _ gcmd printer p Hp).
  rewrite run_profile_run. unfold travel_time.
  destruct (ltb_spec (size p / (max_speed p / 60)) 0.25) as [Ht|Ht].
  - split; [split|]; try discriminate.
    intros [Hge _]. exfalso. revert Hge. now apply Qlt_not_le.
  - destruct (input_shaper printer); simpl.
    + destruct (main_angles _) as [angles|e] eqn:Hk.
      * destruct (outcome (loop p printer angles)) as [[]|e] eqn:Hl.
        -- split; [split|]; try discriminate. now intros [_ H].
        -- apply angle_loop_raises in Hl as (a & _ & _ & ->).
           split; [split|]; try discriminate. now intros [_ H].
      * unfold main_angles in Hk. destruct (_ || _); [discriminate|].
        destruct (_ =? _)%string; [discriminate|]. injection Hk as <-.
        split; [split|]; try discriminate. now intros [_ H].
    + split; [split|]; auto.
Qed.

(** X2.  The command completes exactly when its parameters are accepted,
    the travel time is at least 0.25, the input shaper is configured, the
    kinematics is supported and, for each of its angles, the chosen chip
    is a printer object. *)
Theorem completes_iff gcmd printer :
  outcome (run gcmd printer) = Ok tt <->
  exists p angles,
    outcome (get_params gcmd) = Ok p /\
    0.25 <= size p / (max_speed p / 60) /\
    input_shaper printer = true /\
    main_angles (kinematics printer) = Ok angles /\
    forall a, In a angles ->
      lookup_object printer (current_accel_chip p printer a) <> None.
Proof.
  split.
  - destruct (create_cases math_radians math_cos math_sin gcmd printer)
      as [(p & Hp & ->)|(name & _ & ->)]; [|discriminate].
    rewrite run_profile_run. unfold travel_time.
    destruct (ltb_spec (size p / (max_speed p / 60)) 0.25) as [Ht|Ht];
      [discriminate|].
    destruct (input_shaper printer) eqn:Hs; [|discriminate]. simpl.
    destruct (main_angles _) as [angles|e] eqn:Hk; [|discriminate].
    destruct (outcome (loop p printer angles)) as [[]|e] eqn:Hl;
      [|discriminate].
    intros _. exists p, angles. repeat split; auto.
    exact (proj1 (angle_loop_completes_iff p printer angles) Hl).
  - intros (p & angles & Hp & Ht & Hs & Hk & Hall).
    rewrite (create_with_params _ _ _ gcmd printer p Hp).
    rewrite run_profile_run, Hk, Hs. unfold travel_time.
    apply ltb_ge in Ht. rewrite Ht. simpl.
    apply (proj2 (angle_loop_completes_iff p printer angles)) in Hall.
    now rewrite Hall.
Qed.

(** X3.  A completed run makes its recordings angle by angle, in the
    order of the angle list, and for each angle one recording per speed in
    increasing order of speed; each is named after its angle and speed.
    There are two angles, so twice [nb_speed_samples] recordings. *)
Theorem recordings_of_completed_run gcmd printer p angles
  (Hp : outcome (get_params gcmd) = Ok p)
  (Hk : main_angles (kinematics printer) = Ok angles)
  (Hok : outcome (run gcmd printer) = Ok tt) :
  recordings (trace (run gcmd printer))
  = flat_map (angle_recordings p) angles /\
  count is_start (trace (run gcmd printer))
  = (2 * Z.to_nat (nb_speed_samples (max_speed p) (speed_increment p)))%nat.
Proof.
  assert (Hr : recordings (trace (run gcmd printer))
               = flat_map (angle_recordings p) angles).
  { revert Hok. rewrite (create_with_params _ _ _ gcmd printer p Hp).
    rewrite run_profile_run, Hk.
    destruct (Py.ltb _ _); [discriminate|].
    destruct (negb _); [discriminate|].
    destruct (outcome (loop p printer angles)) as [[]|e] eqn:Hl;
      [|discriminate].
    intros _. cbn [trace fst]. rewrite !recordings_app.
    change (recordings (prologue p printer)) with (@nil recording_name).
    change (recordings (epilogue p printer)) with (@nil recording_name).
    rewrite app_nil_r. cbn [app].
    pose proof (proj1 (angle_loop_completes_iff p printer angles) Hl)
      as Hall.
    unfold angle_loop in *. apply for_each_completes in Hl as [_ ->].
    clear Hk. induction angles as [|a angles IH]; [reflexivity|].
    cbn [flat_map]. rewrite recordings_app, recordings_measure_angle.
    rewrite IH by (intros b Hb; apply Hall; now right).
    specialize (Hall a (or_introl eq_refl)).
    now destruct (lookup_object printer _). }
  split; [exact Hr|].
  rewrite <- recordings_count, Hr.
  apply main_angles_two in Hk.
  destruct angles as [|a [|b [|c l]]]; try discriminate.
  simpl. rewrite app_nil_r, length_app. unfold angle_recordings.
  rewrite !length_map. unfold Py.range. rewrite length_seq. lia.
Qed.

(** X4.  The accelerometer is looked up angle by angle: the command stops
    at the first angle whose chip is not a printer object, after having
    measured every angle before it completely, and reports that chip. *)
Theorem abort_at_first_missing_accelerometer gcmd printer p before a after
  (Hp : outcome (get_params gcmd) = Ok p)
  (Ht : 0.25 <= size p / (max_speed p / 60))
  (Hs : input_shaper printer = true)
  (Hk : main_angles (kinematics printer) = Ok (before ++ a :: after))
  (Hbefore : forall b, In b before ->
     lookup_object printer (current_accel_chip p printer b) <> None)
  (Ha : lookup_object printer (current_accel_chip p printer a) = None) :
  outcome (run gcmd printer)
  = Raise (AccelerometerNotFound (current_accel_chip p printer a)) /\
  recordings (trace (run gcmd printer))
  = flat_map (angle_recordings p) before /\
  exists measured,
    trace (run gcmd printer)
    = prologue p printer ++ measured ++ [ConsolePrint (MsgMeasuringAngle a)].
Proof.
  rewrite (create_with_params _ _ _ gcmd printer p Hp).
  rewrite run_profile_run, Hk, Hs. unfold travel_time.
  apply ltb_ge in Ht. rewrite Ht. cbn [negb].
  unfold angle_loop.
  rewrite (for_each_stops before after a _
             (AccelerometerNotFound (current_accel_chip p printer a))).
  - cbn [outcome trace fst snd]. split; [reflexivity|]. split.
    + rewrite !recordings_app, recordings_measure_angle, Ha, app_nil_r.
      change (recordings (prologue p printer)) with (@nil recording_name).
      cbn [app]. clear Hk.
      induction before as [|b before IH]; [reflexivity|].
      cbn [flat_map]. rewrite recordings_app, recordings_measure_angle.
      rewrite IH by (intros c Hc; apply Hbefore; now right).
      specialize (Hbefore b (or_introl eq_refl)).
      now destruct (lookup_object printer _).
    + eexists. rewrite measure_angle_run, Ha. cbn [trace fst]. reflexivity.
  - intros b Hb. rewrite measure_angle_outcome.
    specialize (Hbefore b Hb). now destruct (lookup_object printer _).
  - now rewrite measure_angle_outcome, Ha.
Qed.

End RunOutcomes.

(** ** Chips, speeds and post-processing *)

Lemma lookup_object_some printer name chip :
  lookup_object printer name = Some chip ->
  name = Some chip /\ In chip (accelerometers printer).
Proof.
  unfold lookup_object. destruct name as [c|]; [|discriminate].
  destruct (existsb _ _) eqn:E; [|discriminate].
  intros [= <-]. split; [reflexivity|].
  apply existsb_exists in E as (x & Hx & Heq).
  apply String.eqb_eq in Heq. now subst.
Qed.

Lemma Forall_test_moves (Q : event -> Prop) plus minus speed n :
  (forall target s, Q (Move target s)) ->
  Forall Q (test_moves plus minus speed n).
Proof.
  intro HQ. unfold test_moves. generalize 0%nat.
  induction n as [|n IH]; intro start; simpl; auto.
Qed.

Lemma filter_test_moves (f : event -> bool) plus minus speed n :
  (forall target s, f (Move target s) = false) ->
  filter f (test_moves plus minus speed n) = [].
Proof.
  intro Hf. unfold test_moves. generalize 0%nat.
  induction n as [|n IH]; intro start; simpl; [reflexivity|].
  now rewrite !Hf.
Qed.

Section ChosenChips.

Variable math_radians : Z -> Q.
Variables math_cos math_sin : Q -> Q.

Local Abbreviation run :=
  (create_vibrations_profile math_radians math_cos math_sin).
Local Abbreviation profile := (run_profile math_radians math_cos math_sin).
Local Abbreviation loop := (angle_loop math_radians math_cos math_sin).
Local Abbreviation angle := (measure_angle math_radians math_cos math_sin).

(** X5.  An empty [ACCEL_CHIP] is the same as none: the two commands run
    alike on every printer. *)
Theorem empty_chip_is_no_chip gcmd printer :
  run (with_chip gcmd (Some ""%string)) printer
  = run (with_chip gcmd None) printer.
Proof. reflexivity. Qed.

Lemma on_chosen_chip_angle p printer mid_x mid_y E a :
  Forall (on_chosen_chip p printer)
    (trace (angle p printer mid_x mid_y E a)).
Proof.
  rewrite measure_angle_run.
  destruct (lookup_object printer _) as [chip|] eqn:Hl; cbn [trace fst].
  - apply lookup_object_some in Hl as [Hc Hin].
    constructor; [exact I|]. constructor; [exact I|].
    unfold speed_loop_trace. apply Forall_flat_map, Forall_forall.
    intros i _. rewrite measure_speed_run. cbn [trace fst].
    apply Forall_app. split; [|apply Forall_app; split].
    + repeat constructor; assumption.
    + apply Forall_test_moves. intros; exact I.
    + repeat constructor.
  - repeat constructor.
Qed.

Lemma on_chosen_chip_profile p printer :
  Forall (on_chosen_chip p printer) (trace (profile p printer)).
Proof.
  rewrite run_profile_run.
  destruct (Py.ltb _ _); [constructor|].
  destruct (negb _); [constructor|].
  destruct (main_angles _) as [angles|e]; [|constructor].
  assert (Hloop : Forall (on_chosen_chip p printer)
                    (trace (loop p printer angles))).
  { unfold angle_loop.
    apply (for_each_invariant (Forall (on_chosen_chip p printer))).
    - constructor.
    - intros t1 t2 H1 H2. apply Forall_app. auto.
    - intro a. apply on_chosen_chip_angle. }
  destruct (outcome (loop p printer angles)); cbn [trace fst];
    rewrite ?Forall_app; repeat split; auto;
    unfold prologue, epilogue; repeat constructor.
Qed.

(** X6.  Every recording of a run is started on the chip chosen for the
    angle in its name (the chip of the command, or else the one the
    printer resolves for the axis of that angle), and that chip is a
    printer object. *)
Theorem recordings_on_chosen_chip gcmd printer p
  (Hp : outcome (get_params gcmd) = Ok p) :
  Forall (on_chosen_chip p printer) (trace (run gcmd printer)).
Proof.
  rewrite (create_with_params _ _ _ gcmd printer p Hp).
  apply on_chosen_chip_profile.
Qed.

(** X7.  When the command names a chip, the printer's axis resolution is
    never consulted: the run is the same whatever it would answer, and
    every recording is started on the named chip. *)
Theorem named_chip_bypasses_resolution gcmd printer p chip resolver
  (Hp : outcome (get_params gcmd) = Ok p)
  (Hc : accel_chip p = Some chip) :
  run gcmd (with_resolver printer resolver) = run gcmd printer /\
  Forall (fun ev => forall c name, ev = StartRecording c name -> c = chip)
    (trace (run gcmd printer)).
Proof.
  split.
  - rewrite !(create_with_params _ _ _ gcmd _ p Hp).
    unfold run_profile. cbn [with_resolver input_shaper kinematics
      max_accel square_corner_velocity minimum_cruise_ratio get_position].
    destruct (Py.ltb _ _); [reflexivity|].
    destruct (negb _); [reflexivity|].
    destruct (main_angles _) as [angles|e]; [|reflexivity].
    assert (E : for_each angles
                  (angle p (with_resolver printer resolver)
                     (mid_x (with_resolver printer resolver))
                     (mid_y (with_resolver printer resolver))
                     (pos_e (get_position printer)))
                = for_each angles
                    (angle p printer (mid_x printer) (mid_y printer)
                       (pos_e (get_position printer)))).
    { apply for_each_ext. intros a _.
      unfold measure_angle, current_accel_chip. rewrite Hc. reflexivity. }
    unfold test_limits. cbn [with_resolver minimum_cruise_ratio].
    now rewrite E.
  - rewrite (create_with_params _ _ _ gcmd printer p Hp).
    eapply Forall_impl; [|apply on_chosen_chip_profile].
    intros ev Hev c name ->. simpl in Hev. destruct Hev as [Hev _].
    unfold current_accel_chip in Hev. rewrite Hc in Hev. congruence.
Qed.

End ChosenChips.

(** ** Speeds of the moves, post-processing and what is never read *)

Section MotionFacts.

Variable math_radians : Z -> Q.
Variables math_cos math_sin : Q -> Q.

Local Abbreviation run :=
  (create_vibrations_profile math_radians math_cos math_sin).
Local Abbreviation profile := (run_profile math_radians math_cos math_sin).
Local Abbreviation loop := (angle_loop math_radians math_cos math_sin).

(** X8.  Every move made while a recording is open runs at the speed the
    recording is named after; every other move runs at the travel speed,
    or at a tenth of it (the initial raise).  No recording is left open at
    the end of the run. *)
Theorem moves_run_at_recorded_speed gcmd printer p
  (Hp : outcome (get_params gcmd) = Ok p) :
  move_speeds (travel_speeds p) None (trace (run gcmd printer)) /\
  open_recording None (trace (run gcmd printer)) = None.
Proof.
  rewrite (create_with_params _ _ _ gcmd printer p Hp).
  set (P := fun t : list event =>
              move_speeds (travel_speeds p) None t /\
              open_recording None t = None).
  change (P (trace (profile p printer))).
  apply run_profile_invariant; unfold P.
  - split; [exact I | reflexivity].
  - intros t1 t2 [H1 O1] [H2 O2]. split.
    + apply move_speeds_app; [exact H1 | now rewrite O1].
    + now rewrite open_recording_app, O1.
  - intro msg. split; [exact I | reflexivity].
  - intros. rewrite measure_speed_run. cbn [trace fst]. split.
    + simpl. split; [now left|].
      apply (move_speeds_test_moves (travel_speeds p)
               (VibName curr_angle _)).
      exact I.
    + simpl. now rewrite open_recording_test_moves.
  - split; [|reflexivity]. simpl.
    split; [now right|]. split; [now left|]. exact I.
  - split; [exact I | reflexivity].
Qed.

Lemma angle_loop_no_processing p printer angles :
  filter is_processing (trace (loop p printer angles)) = [].
Proof.
  apply (angle_loop_invariant math_radians math_cos math_sin
           (fun t => filter is_processing t = [])); try reflexivity.
  - intros t1 t2 H1 H2. now rewrite filter_app, H1, H2.
  - intros. rewrite measure_speed_run. cbn [trace fst].
    rewrite !filter_app, filter_test_moves by reflexivity. reflexivity.
Qed.

(** X9.  The analysis is launched only by a completed sweep: such a run
    configures the graph creator with the kinematics and the requested
    acceleration, starts the process and waits for it, once each and in
    that order, as its last three calls; a run that raises never calls
    the analysis process. *)
Theorem analysis_only_after_completed_sweep gcmd printer p
  (Hp : outcome (get_params gcmd) = Ok p) :
  (outcome (run gcmd printer) = Ok tt ->
   filter is_processing (trace (run gcmd printer))
   = [GraphConfigure (kinematics printer) (accel p); ProcessRun;
      ProcessWaitForCompletion] /\
   exists before,
     trace (run gcmd printer)
     = before ++ [GraphConfigure (kinematics printer) (accel p);
                  ProcessRun; ProcessWaitForCompletion]) /\
  (forall e, outcome (run gcmd printer) = Raise e ->
   filter is_processing (trace (run gcmd printer)) = []).
Proof.
  rewrite (create_with_params _ _ _ gcmd printer p Hp).
  rewrite run_profile_run.
  destruct (Py.ltb _ _); [split; [discriminate | reflexivity]|].
  destruct (negb _); [split; [discriminate | reflexivity]|].
  destruct (main_angles _) as [angles|e];
    [|split; [discriminate | reflexivity]].
  pose proof (angle_loop_no_processing p printer angles) as Hl.
  destruct (outcome (loop p printer angles)) as [[]|e];
    cbn [trace outcome fst snd]; split; try discriminate.
  - intros _. split.
    + rewrite !filter_app, Hl. reflexivity.
    + exists (prologue p printer ++ trace (loop p printer angles)
              ++ firstn 4 (epilogue p printer)).
      now rewrite <- !app_assoc.
  - intros e' _. now rewrite !filter_app, Hl.
Qed.

(** X10.  The command never uses the height the toolhead is at: started
    from any other Z, with X, Y and E alike, it runs the same. *)
Theorem start_height_is_ignored gcmd printer z :
  run gcmd (at_height printer z) = run gcmd printer.
Proof.
  unfold create_vibrations_profile. f_equal.
Qed.

(** X11.  Whenever the command issues anything, it begins by announcing
    the kinematics, applying the test limits, raising the toolhead,
    going to 15 mm before the centre on both axes and dwelling 0.5 s; so
    the test limits are in force before the first move.  It issues
    nothing exactly when it raises for the travel time, the input shaper
    or the kinematics. *)
Theorem prologue_comes_first gcmd printer p
  (Hp : outcome (get_params gcmd) = Ok p) :
  (trace (run gcmd printer) = [] /\
   (outcome (run gcmd printer) = Raise MovementTooSmall \/
    outcome (run gcmd printer) = Raise InputShaperNotConfigured \/
    outcome (run gcmd printer) = Raise UnsupportedKinematics)) \/
  ((exists rest, trace (run gcmd printer) = prologue p printer ++ rest) /\
   (outcome (run gcmd printer) = Ok tt \/
    exists chip,
      outcome (run gcmd printer) = Raise (AccelerometerNotFound chip))).
Proof.
  rewrite (create_with_params _ _ _ gcmd printer p Hp).
  rewrite run_profile_run.
  destruct (Py.ltb _ _); [left; auto|].
  destruct (negb _); [left; auto|].
  destruct (main_angles _) as [angles|e] eqn:Hk.
  - right.
    destruct (outcome (loop p printer angles)) as [[]|e] eqn:Hl;
      cbn [trace outcome fst snd].
    + split; [eexists; reflexivity | now left].
    + apply angle_loop_raises in Hl as (a & _ & _ & ->).
      split; [eexists; reflexivity | right; eexists; reflexivity].
  - left. unfold main_angles in Hk.
    destruct (_ || _); [discriminate|].
    destruct (_ =? _)%string; [discriminate|]. injection Hk as <-. auto.
Qed.

End MotionFacts.

(** ** The segment and the axes *)

Lemma half_nonneg (x : Q) : 0 <= x -> 0 <= x / 2.
Proof. intro H. apply Qle_shift_div_l; [reflexivity | lra]. Qed.

Lemma scaled_within (h c m : Q) :
  0 <= h -> -1 <= c -> c <= 1 -> 0 <= m -> m <= 1 ->
  - h <= h * c * m /\ h * c * m <= h.
Proof.
  intros Hh Hc1 Hc2 Hm1 Hm2.
  assert (Hcm : -1 <= c * m /\ c * m <= 1) by (split; nra).
  destruct Hcm as [Hlo Hhi].
  assert (E : h * c * m == h * (c * m)) by ring.
  rewrite E. split; nra.
Qed.

(** With a cosine and a sine between -1 and 1 and a non-negative size,
    both ends of the test segment of every sampled speed lie within
    [size / 2] of the centre on each axis. *)
Lemma endpoints_in_square (math_cos math_sin : Q -> Q) (p : params)
  (mid_x mid_y E radian_angle inc : Q) (i : nat)
  (Hsize : 0 <= size p)
  (Hcos : -1 <= math_cos radian_angle /\ math_cos radian_angle <= 1)
  (Hsin : -1 <= math_sin radian_angle /\ math_sin radian_angle <= 1)
  (Hinc : 0 <= inc) :
  let m := segment_length_multiplier (curr_speed inc i) in
  forall e,
    e = endpoint_plus math_cos math_sin p mid_x mid_y E radian_angle m \/
    e = endpoint_minus math_cos math_sin p mid_x mid_y E radian_angle m ->
    mid_x - size p / 2 <= pos_x e /\ pos_x e <= mid_x + size p / 2 /\
    mid_y - size p / 2 <= pos_y e /\ pos_y e <= mid_y + size p / 2.
Proof.
  intros m e He.
  assert (Hm : 0 < m /\ m <= 1).
  { apply segment_length_multiplier_range.
    pose proof (curr_speed_lower inc i Hinc). lra. }
  destruct Hm as [Hm0 Hm1]. destruct Hcos as [Hc1 Hc2], Hsin as [Hs1 Hs2].
  pose proof (half_nonneg _ Hsize) as Hh.
  destruct (scaled_within (size p / 2) (math_cos radian_angle) m)
    as [Hx1 Hx2]; try assumption; [lra|].
  destruct (scaled_within (size p / 2) (math_sin radian_angle) m)
    as [Hy1 Hy2]; try assumption; [lra|].
  destruct He as [-> | ->]; unfold endpoint_plus, endpoint_minus, dX, dY;
    cbn [pos_x pos_y]; repeat split; lra.
Qed.


(** X14.  The axis asked of the resolver follows the kinematics: the
    angles 0 and 90 of a cartesian or corexz machine ask for the
    accelerometers of the x and of the y axis, the angles 45 and 135 of a
    corexy machine both ask for the one of both axes. *)
Theorem axes_follow_kinematics (family : string) (angles : list Z)
  (Hk : main_angles family = Ok angles) :
  ((family = "cartesian"%string \/ family = "corexz"%string) /\
   angles = [0; 90]%Z /\
   map accel_axis angles = ["x"%string; "y"%string]) \/
  (family = "corexy"%string /\
   angles = [45; 135]%Z /\
   map accel_axis angles = ["xy"%string; "xy"%string]).
Proof.
  unfold main_angles in Hk.
  destruct (family =? "cartesian")%string eqn:E1.
  - apply String.eqb_eq in E1. injection Hk as <-. left. auto.
  - destruct (family =? "corexz")%string eqn:E2.
    + apply String.eqb_eq in E2. injection Hk as <-. left. auto.
    + simpl in Hk. destruct (family =? "corexy")%string eqn:E3;
        [|discriminate].
      apply String.eqb_eq in E3. injection Hk as <-. right. auto.
Qed.

(** ** Recorded speeds, distinct recordings and the swept area *)





Section RecordingNames.

Variable math_radians : Z -> Q.
Variables math_cos math_sin : Q -> Q.

Local Abbreviation run :=
  (create_vibrations_profile math_radians math_cos math_sin).
Local Abbreviation profile := (run_profile math_radians math_cos math_sin).
Local Abbreviation loop := (angle_loop math_radians math_cos math_sin).
Local Abbreviation angle := (measure_angle math_radians math_cos math_sin).





End RecordingNames.

Section SweptArea.

Variable math_radians : Z -> Q.
Variables math_cos math_sin : Q -> Q.

Local Abbreviation run :=
  (create_vibrations_profile math_radians math_cos math_sin).
Local Abbreviation profile := (run_profile math_radians math_cos math_sin).
Local Abbreviation loop := (angle_loop math_radians math_cos math_sin).

(** X12.  With a cosine and a sine between -1 and 1, every move of a run
    other than the initial raise (which keeps X and Y) targets a point
    within [size / 2] of the centre of the bed on each axis: the sweep
    stays inside the square of side [size] around the centre. *)
Theorem sweep_stays_in_pattern gcmd printer p
  (Hp : outcome (get_params gcmd) = Ok p)
  (Hcos : forall r, -1 <= math_cos r /\ math_cos r <= 1)
  (Hsin : forall r, -1 <= math_sin r /\ math_sin r <= 1) :
  forall m, In m (moves (trace (run gcmd printer))) ->
    m = (Pos (pos_x (get_position printer)) (pos_y (get_position printer))
             (z_height p) (pos_e (get_position printer)),
         feedrate_travel p / 10) \/
    in_pattern p printer (fst m).
Proof.
  rewrite (create_with_params _ _ _ gcmd printer p Hp).
  apply get_params_bounds in Hp as (Hsize & _ & Hinc & _ & _).
  assert (Hhalf : 25 <= size p / 2)
    by (apply Qle_shift_div_l; [reflexivity | lra]).
  set (ok := fun m : position * Q => in_pattern p printer (fst m)).
  assert (Hloop : forall angles,
             Forall ok (moves (trace (loop p printer angles)))).
  { intro angles.
    apply (angle_loop_invariant math_radians math_cos math_sin
             (fun t => Forall ok (moves t))).
    - constructor.
    - intros t1 t2 H1 H2. rewrite moves_app. apply Forall_app. auto.
    - intro msg. constructor.
    - intros a r chip i. rewrite measure_speed_run. cbn [trace fst].
      pose proof (endpoints_in_square math_cos math_sin p (mid_x printer)
                    (mid_y printer) (pos_e (get_position printer)) r
                    (speed_increment p) i ltac:(lra) (Hcos r) (Hsin r)
                    ltac:(lra)) as Hin.
      cbv zeta in Hin.
      rewrite !moves_app.
      apply Forall_app; split; [|apply Forall_app; split].
      + simpl. constructor; [|constructor].
        unfold ok, in_pattern. apply Hin. now right.
      + eapply Forall_impl; [|apply moves_test_moves].
        intros m [H|H]; unfold ok, in_pattern; rewrite H; apply Hin; auto.
      + simpl. constructor. }
  intros m Hm. revert Hm. rewrite run_profile_run.
  destruct (Py.ltb _ _); [intros []|].
  destruct (negb _); [intros []|].
  destruct (main_angles _) as [angles|e]; [|intros []].
  specialize (Hloop angles). rewrite Forall_forall in Hloop.
  assert (Hstart : in_pattern p printer
            (Pos (mid_x printer - 15) (mid_y printer - 15) (z_height p)
               (pos_e (get_position printer)))).
  { unfold in_pattern. cbn [pos_x pos_y]. repeat split; lra. }
  destruct (outcome (loop p printer angles)); cbn [trace fst];
    rewrite !moves_app; cbn [prologue epilogue moves app];
    (intros [<-|[<-|Hm]]; [now left | now right |]);
    rewrite ?app_nil_r in Hm; right; now apply Hloop.
Qed.

End SweptArea.

(** ** Which commands are accepted *)

Lemma get_float_accepts raw name default m :
  (forall x, raw = Some x -> m <= x) ->
  get_float raw name default (Some m) = ([], Ok (or_default raw default)).
Proof.
  intro H. unfold get_float. destruct raw as [x|]; [|reflexivity].
  specialize (H x eq_refl). apply ltb_ge in H. now rewrite H.
Qed.

Lemma get_float_accepted raw name default m v :
  outcome (get_float raw name default (Some m)) = Ok v ->
  v = or_default raw default /\ (forall x, raw = Some x -> m <= x).
Proof.
  unfold get_float. destruct raw as [x|]; simpl.
  - destruct (ltb_spec x m); simpl; [discriminate|].
    intros [= <-]. split; [reflexivity|]. now intros y [= <-].
  - intros [= <-]. split; [reflexivity | discriminate].
Qed.

Lemma get_float_any raw name default :
  get_float raw name default None = ([], Ok (or_default raw default)).
Proof. unfold get_float. now destruct raw. Qed.

Lemma get_int_accepts raw name default m :
  (forall x, raw = Some x -> (m <= x)%Z) ->
  get_int raw name default m = ([], Ok (or_default raw default)).
Proof.
  intro H. unfold get_int. destruct raw as [x|]; [|reflexivity].
  specialize (H x eq_refl). apply Z.ltb_ge in H. now rewrite H.
Qed.

Lemma get_int_accepted raw name default m v :
  outcome (get_int raw name default m) = Ok v ->
  v = or_default raw default /\ (forall x, raw = Some x -> (m <= x)%Z).
Proof.
  unfold get_int. destruct raw as [x|]; simpl.
  - destruct (Z.ltb_spec x m); simpl; [discriminate|].
    intros [= <-]. split; [reflexivity|]. now intros y [= <-].
  - intros [= <-]. split; [reflexivity | discriminate].
Qed.

Lemma Qle_lower (a b x : Q) : a == b -> a <= x -> b <= x.
Proof. intros E H. now rewrite <- E. Qed.

(** X17.  A command is accepted exactly when each parameter it gives is
    at least its minimum: 50 for [SIZE], 10 for [MAX_SPEED], 1 for
    [SPEED_INCREMENT], 100 for [ACCEL], 20 for [TRAVEL_SPEED]; [Z_HEIGHT]
    has no minimum.  The accepted values are those given, the defaults
    (100, 20, 200, 2, 3000, 120) standing for the parameters left out. *)
Theorem parameters_accepted_iff (gcmd : GCmd) :
  ((exists p, outcome (get_params gcmd) = Ok p) <->
   (forall v, SIZE gcmd = Some v -> 50 <= v) /\
   (forall v, MAX_SPEED gcmd = Some v -> 10 <= v) /\
   (forall v, SPEED_INCREMENT gcmd = Some v -> 1 <= v) /\
   (forall v, ACCEL_PARAM gcmd = Some v -> (100 <= v)%Z) /\
   (forall v, TRAVEL_SPEED gcmd = Some v -> 20 <= v)) /\
  (forall p, outcome (get_params gcmd) = Ok p ->
   size p = or_default (SIZE gcmd) 100.0 /\
   z_height p = or_default (Z_HEIGHT gcmd) 20.0 /\
   max_speed p = or_default (MAX_SPEED gcmd) 200.0 /\
   speed_increment p = or_default (SPEED_INCREMENT gcmd) 2.0 /\
   accel p = or_default (ACCEL_PARAM gcmd) 3000%Z /\
   feedrate_travel p = or_default (TRAVEL_SPEED gcmd) 120.0).
Proof.
  assert (Hinv : forall p, outcome (get_params gcmd) = Ok p ->
            ((forall v, SIZE gcmd = Some v -> 50 <= v) /\
             (forall v, MAX_SPEED gcmd = Some v -> 10 <= v) /\
             (forall v, SPEED_INCREMENT gcmd = Some v -> 1 <= v) /\
             (forall v, ACCEL_PARAM gcmd = Some v -> (100 <= v)%Z) /\
             (forall v, TRAVEL_SPEED gcmd = Some v -> 20 <= v)) /\
            size p = or_default (SIZE gcmd) 100.0 /\
            z_height p = or_default (Z_HEIGHT gcmd) 20.0 /\
            max_speed p = or_default (MAX_SPEED gcmd) 200.0 /\
            speed_increment p = or_default (SPEED_INCREMENT gcmd) 2.0 /\
            accel p = or_default (ACCEL_PARAM gcmd) 3000%Z /\
            feedrate_travel p = or_default (TRAVEL_SPEED gcmd) 120.0).
  { intro p. unfold get_params.
    rewrite outcome_bind.
    destruct (outcome (get_float (SIZE gcmd) _ _ _)) as [v1|] eqn:E1;
      [|discriminate].
    rewrite outcome_bind, get_float_any. cbn [outcome snd].
    rewrite outcome_bind.
    destruct (outcome (get_float (MAX_SPEED gcmd) _ _ _)) as [v3|] eqn:E3;
      [|discriminate].
    rewrite outcome_bind.
    destruct (outcome (get_float (SPEED_INCREMENT gcmd) _ _ _))
      as [v4|] eqn:E4; [|discriminate].
    rewrite outcome_bind.
    destruct (outcome (get_int (ACCEL_PARAM gcmd) _ _ _)) as [v5|] eqn:E5;
      [|discriminate].
    rewrite outcome_bind.
    destruct (outcome (get_float (TRAVEL_SPEED gcmd) _ _ _)) as [v6|] eqn:E6;
      [|discriminate].
    intros [= <-]. cbn [size z_height max_speed speed_increment accel
                         feedrate_travel].
    apply get_float_accepted in E1 as [-> H1], E3 as [-> H3],
      E4 as [-> H4], E6 as [-> H6].
    apply get_int_accepted in E5 as [-> H5].
    repeat split; auto; intros v Hv.
    + apply H1 in Hv. revert Hv. apply Qle_lower. reflexivity.
    + apply H3 in Hv. revert Hv. apply Qle_lower. reflexivity.
    + apply H4 in Hv. revert Hv. apply Qle_lower. reflexivity.
    + apply H6 in Hv. revert Hv. apply Qle_lower. reflexivity. }
  split; [split|].
  - intros [p Hp]. apply (Hinv p Hp).
  - intros (H1 & H3 & H4 & H5 & H6). unfold get_params.
    rewrite (get_float_accepts (SIZE gcmd) _ _ 50.0), get_float_any,
      (get_float_accepts (MAX_SPEED gcmd) _ _ 10.0),
      (get_float_accepts (SPEED_INCREMENT gcmd) _ _ 1.0),
      (get_int_accepts _ _ _ _ H5),
      (get_float_accepts (TRAVEL_SPEED gcmd) _ _ 20.0);
      try (intros v Hv;
           first [apply H1 in Hv | apply H3 in Hv | apply H4 in Hv
                 | apply H6 in Hv];
           revert Hv; apply Qle_lower; reflexivity).
    eexists. reflexivity.
  - intros p Hp. apply (Hinv p Hp).
Qed.

(** ** More runs of the test bench *)

Lemma input_shaper_required_witness :
  outcome (get_params short_gcmd) = Ok short_params /\
  trace (bench_run short_gcmd no_shaper_printer) = [].
Proof.
  split; [reflexivity|].
  apply (input_shaper_required bench_radians bench_cos bench_sin
           short_gcmd no_shaper_printer short_params eq_refl).
  reflexivity.
Defined.

Lemma recordings_of_completed_run_witness :
  outcome (get_params short_gcmd) = Ok short_params /\
  main_angles "cartesian" = Ok [0; 90]%Z /\
  count is_start
    (trace (bench_run short_gcmd (bench_printer None ["adxl345"%string])))
  = 6%nat.
Proof.
  split; [reflexivity|]. split; [reflexivity|].
  apply (recordings_of_completed_run bench_radians bench_cos bench_sin
           short_gcmd (bench_printer None ["adxl345"%string]) short_params
           [0; 90]%Z eq_refl eq_refl).
  vm_compute. reflexivity.
Defined.

Lemma abort_at_first_missing_accelerometer_witness :
  outcome (get_params short_gcmd) = Ok short_params /\
  outcome (bench_run short_gcmd one_axis_printer)
  = Raise (AccelerometerNotFound (Some "lis2dw"%string)) /\
  recordings (trace (bench_run short_gcmd one_axis_printer))
  = [VibName 0 2; VibName 0 6; VibName 0 10].
Proof.
  split; [reflexivity|].
  pose proof (abort_at_first_missing_accelerometer
                bench_radians bench_cos bench_sin
                short_gcmd one_axis_printer short_params [0%Z] 90%Z []
                eq_refl) as H.
  destruct H as (Ho & Hr & _).
  - unfold Qle. simpl. lia.
  - reflexivity.
  - reflexivity.
  - intros b [<-|[]]. discriminate.
  - reflexivity.
  - split; [exact Ho|]. unfold bench_run. rewrite Hr. reflexivity.
Defined.

Lemma recordings_on_chosen_chip_witness :
  outcome (get_params short_gcmd) = Ok short_params /\
  Forall (on_chosen_chip short_params one_axis_printer)
    (trace (bench_run short_gcmd one_axis_printer)).
Proof.
  split; [reflexivity|].
  apply (recordings_on_chosen_chip bench_radians bench_cos bench_sin
           short_gcmd one_axis_printer short_params eq_refl).
Defined.

Lemma named_chip_bypasses_resolution_witness :
  outcome (get_params named_gcmd) = Ok named_params /\
  accel_chip named_params = Some "adxl345"%string /\
  bench_run named_gcmd (with_resolver one_axis_printer (fun _ => None))
  = bench_run named_gcmd one_axis_printer.
Proof.
  split; [reflexivity|]. split; [reflexivity|].
  apply (named_chip_bypasses_resolution bench_radians bench_cos bench_sin
           named_gcmd one_axis_printer named_params "adxl345"%string
           (fun _ => None) eq_refl eq_refl).
Defined.

Lemma moves_run_at_recorded_speed_witness :
  outcome (get_params short_gcmd) = Ok short_params /\
  open_recording None
    (trace (bench_run short_gcmd (bench_printer None ["adxl345"%string])))
  = None.
Proof.
  split; [reflexivity|].
  apply (moves_run_at_recorded_speed bench_radians bench_cos bench_sin
           short_gcmd (bench_printer None ["adxl345"%string])
           short_params eq_refl).
Defined.

Lemma analysis_only_after_completed_sweep_witness :
  outcome (get_params short_gcmd) = Ok short_params /\
  filter is_processing (trace (bench_run short_gcmd one_axis_printer)) = [].
Proof.
  split; [reflexivity|].
  apply (proj2 (analysis_only_after_completed_sweep
                  bench_radians bench_cos bench_sin
                  short_gcmd one_axis_printer short_params eq_refl)
           (AccelerometerNotFound (Some "lis2dw"%string))).
  reflexivity.
Defined.

Lemma prologue_comes_first_witness :
  outcome (get_params short_gcmd) = Ok short_params /\
  ((trace (bench_run short_gcmd one_axis_printer) = [] /\
    (outcome (bench_run short_gcmd one_axis_printer)
     = Raise MovementTooSmall \/
     outcome (bench_run short_gcmd one_axis_printer)
     = Raise InputShaperNotConfigured \/
     outcome (bench_run short_gcmd one_axis_printer)
     = Raise UnsupportedKinematics)) \/
   ((exists rest,
       trace (bench_run short_gcmd one_axis_printer)
       = prologue short_params one_axis_printer ++ rest) /\
    (outcome (bench_run short_gcmd one_axis_printer) = Ok tt \/
     exists chip,
       outcome (bench_run short_gcmd one_axis_printer)
       = Raise (AccelerometerNotFound chip)))).
Proof.
  split; [reflexivity|].
  apply (prologue_comes_first bench_radians bench_cos bench_sin
           short_gcmd one_axis_printer short_params eq_refl).
Defined.

Lemma bench_trig_bounded :
  (forall r, -1 <= bench_cos r /\ bench_cos r <= 1) /\
  (forall r, -1 <= bench_sin r /\ bench_sin r <= 1).
Proof.
  split; intro r; unfold bench_cos, bench_sin;
    destruct (Qle_bool r 1); split; unfold Qle; simpl; lia.
Defined.

Lemma sweep_stays_in_pattern_witness :
  outcome (get_params short_gcmd) = Ok short_params /\
  (forall r, -1 <= bench_cos r /\ bench_cos r <= 1) /\
  (forall r, -1 <= bench_sin r /\ bench_sin r <= 1) /\
  in_pattern short_params (bench_printer None ["adxl345"%string])
    (Pos 114.2 125 20.0 (7 # 2)).
Proof.
  split; [reflexivity|].
  split; [apply bench_trig_bounded|]. split; [apply bench_trig_bounded|].
  destruct (sweep_stays_in_pattern bench_radians bench_cos bench_sin
              short_gcmd (bench_printer None ["adxl345"%string])
              short_params eq_refl
              (proj1 bench_trig_bounded) (proj2 bench_trig_bounded)
              (Pos 114.20000 125.00000 20.0 (7 # 2), 120.0))
    as [H|H].
  - vm_compute. do 2 right. left. reflexivity.
  - discriminate H.
  - unfold in_pattern in *. cbn [fst pos_x pos_y] in *.
    repeat split; unfold Qle in *; simpl in *; lia.
Defined.


Lemma axes_follow_kinematics_witness :
  main_angles "corexy" = Ok [45; 135]%Z /\
  map accel_axis [45; 135]%Z = ["xy"%string; "xy"%string].
Proof.
  split; [reflexivity|].
  destruct (axes_follow_kinematics "corexy" [45; 135]%Z eq_refl)
    as [([H|H] & _)|(_ & _ & H)]; [discriminate H | discriminate H | exact H].
Defined.


